(** * BLTouch probe controller (klippy/extras/bltouch.py)

    A shallow embedding of [BLTouchEndstopWrapper] and the properties of
    its timing cursors, verification engine, self-test policy and homing
    lifecycle.

    Modelling conventions.
    - Python floats are idealised as exact rationals ([Q]); comparisons
      are Python's, [max]/[min]/[int]/[math.ceil] are written out below.
      The methods are embedded with exact arithmetic; the tick round trip
      of [send_cmd], whose result depends on the rounding of each
      operation, is embedded a second time with binary64 arithmetic
      ([Binary64.round], [send_cmd_b64]).
    - The object graph is an explicit [World]: the wrapper's own fields
      ([BLTouch]) and the state of its collaborators ([Printer]).  The
      methods are programs in a state-and-exception monad; the world
      survives a raised exception, as mutated Python objects do.
    - Collaborator calls whose answer depends on the outside world (the
      toolhead's last move time, the estimated print time, the outcome of
      an endstop wait) are answered by an [Env] of oracles indexed by the
      number of calls made so far. *)

From Stdlib Require Import QArith Qround Qminmax Qpower ZArith List String Bool Lia Lqa.
Import ListNotations.
Open Scope Q_scope.

(** ** Python numerics on rationals *)

Module Py.

Definition ltb (x y : Q) : bool := negb (Qle_bool y x).

(** [max(a, b)]: the first argument unless the second is greater. *)
Definition max (a b : Q) : Q := if ltb a b then b else a.

(** [min(a, b)]: the first argument unless the second is smaller. *)
Definition min (a b : Q) : Q := if ltb b a then b else a.

(** [int(x)]: truncation toward zero. *)
Definition int (x : Q) : Z := if Qle_bool 0 x then Qfloor x else Qceiling x.

(** [math.ceil(x)], kept as a number of the timeline. *)
Definition ceil (x : Q) : Q := inject_Z (Qceiling x).

End Py.

(** ** Binary64 arithmetic *)

(** A float operation of the interpreter returns the exact result rounded
    to the nearest binary64 number, ties to the even significand.  The
    numbers are those with a 53-bit significand; the exponent range is not
    bounded here (no overflow, no subnormal numbers). *)
Module Binary64.

(** Nearest whole number, ties to the even one. *)
Definition round_half_even (y : Q) : Z :=
  let n := Qfloor y in
  match Qcompare (y - inject_Z n) (1 # 2) with
  | Lt => n
  | Gt => (n + 1)%Z
  | Eq => if Z.even n then n else (n + 1)%Z
  end.

(** The exponent [e] of the last place of a positive [x]:
    [2^52 <= x / 2^e < 2^53]. *)
Definition exponent (x : Q) : Z :=
  let k := (Z.log2 (Qnum x) - Z.log2 (Zpos (Qden x)))%Z in
  if Qle_bool (2 ^ k) x then (k - 52)%Z else (k - 53)%Z.

Definition round_pos (x : Q) : Q :=
  let e := exponent x in
  inject_Z (round_half_even (x / 2 ^ e)) * 2 ^ e.

Definition round (x : Q) : Q :=
  match Qnum x with
  | Z0 => 0
  | Zpos _ => round_pos x
  | Zneg _ => - round_pos (- x)
  end.

End Binary64.

(** ** Module constants *)

Definition SIGNAL_PERIOD : Q := 0.025600.
Definition MIN_CMD_TIME : Q := 4 * SIGNAL_PERIOD.

(** [MIN_CMD_TIME] as the interpreter computes it. *)
Definition MIN_CMD_TIME_b64 : Q := Binary64.round (4 * Binary64.round SIGNAL_PERIOD).

Definition TEST_TIME : Q := 5 * 60.
Definition ENDSTOP_REST_TIME : Q := 0.001.
Definition ENDSTOP_SAMPLE_TIME : Q := 0.000015.
Definition ENDSTOP_SAMPLE_COUNT : Z := 4.

(** The keys of the [Commands] dictionary; [cmd_None] is the key [None]. *)
Inductive Command : Set :=
| cmd_None | pin_down | touch_mode | pin_up | self_test | reset.

Definition Commands (cmd : Command) : Q :=
  match cmd with
  | cmd_None => 0.0
  | pin_down => 0.000700
  | touch_mode => 0.001200
  | pin_up => 0.001500
  | self_test => 0.001800
  | reset => 0.002200
  end.

(** [cmd in Commands] for a string key, with the key found. *)
Definition lookup_command (name : string) : option Command :=
  if String.eqb name "pin_down" then Some pin_down
  else if String.eqb name "touch_mode" then Some touch_mode
  else if String.eqb name "pin_up" then Some pin_up
  else if String.eqb name "self_test" then Some self_test
  else if String.eqb name "reset" then Some reset
  else None.

(** ** Data model *)

(** A stepper as the wrapper sees it: the commanded position of the
    kinematics solver and the hardware step counter. *)
Record Stepper : Type := mkStepper {
  commanded_position : Q;
  mcu_position : Z
}.

(** What one [mcu_endstop.home_wait] call does to the outside world. *)
Record WaitOutcome : Type := mkWaitOutcome {
  timed_out : bool;
  stepper_updates : list (nat * Stepper)
}.

Record Env : Type := mkEnv {
  mcu_freq : Q;
  last_move_advance : nat -> Q;
  estimated_print_time : nat -> Q;
  home_wait_outcome : nat -> WaitOutcome
}.

(** Calls made on collaborators, most recent first. *)
Inductive Event : Type :=
| EvSetPwm (print_time value : Q)
| EvDwell (delay : Q)
| EvHomeStart (print_time sample_time : Q) (sample_count : Z)
              (rest_time : Q) (triggered : option bool)
| EvHomeWait (home_end_time : Q)
| EvHomePrepare
| EvHomeFinalize
| EvSetCommandedPosition (stepper : nat) (pos : Q)
| EvRespondInfo (msg : string)
| EvLoggingInfo (msg : string).

(** The fields of a [BLTouchEndstopWrapper] instance. *)
Record BLTouch : Type := mkBLTouch {
  position_endstop : Q;
  next_cmd_time : Q;
  next_test_time : Q;
  pin_up_touch_triggered : bool;
  pin_up_triggered : bool;
  start_mcu_pos : list (nat * Z);
  pin_move_time : Q
}.

(** The collaborators: oracles, toolhead, reactor clock, endstop and the
    stepper objects (by identity). *)
Record Printer : Type := mkPrinter {
  env : Env;
  toolhead_print_time : Q;
  toolhead_reads : nat;
  clock_reads : nat;
  endstop_waits : nat;
  steppers : nat -> Stepper;
  endstop_steppers : list nat;
  log : list Event
}.

Record World : Type := mkWorld {
  self : BLTouch;
  printer : Printer
}.

Definition set_next_cmd_time (t : Q) (w : World) : World :=
  let s := self w in
  mkWorld (mkBLTouch (position_endstop s) t (next_test_time s)
             (pin_up_touch_triggered s) (pin_up_triggered s)
             (start_mcu_pos s) (pin_move_time s))
          (printer w).

Definition set_next_test_time (t : Q) (w : World) : World :=
  let s := self w in
  mkWorld (mkBLTouch (position_endstop s) (next_cmd_time s) t
             (pin_up_touch_triggered s) (pin_up_triggered s)
             (start_mcu_pos s) (pin_move_time s))
          (printer w).

Definition set_start_mcu_pos (l : list (nat * Z)) (w : World) : World :=
  let s := self w in
  mkWorld (mkBLTouch (position_endstop s) (next_cmd_time s) (next_test_time s)
             (pin_up_touch_triggered s) (pin_up_triggered s)
             l (pin_move_time s))
          (printer w).

Definition set_toolhead (t : Q) (reads : nat) (w : World) : World :=
  let p := printer w in
  mkWorld (self w)
          (mkPrinter (env p) t reads (clock_reads p) (endstop_waits p)
             (steppers p) (endstop_steppers p) (log p)).

Definition set_clock_reads (n : nat) (w : World) : World :=
  let p := printer w in
  mkWorld (self w)
          (mkPrinter (env p) (toolhead_print_time p) (toolhead_reads p) n
             (endstop_waits p) (steppers p) (endstop_steppers p) (log p)).

Definition set_endstop_waits (n : nat) (w : World) : World :=
  let p := printer w in
  mkWorld (self w)
          (mkPrinter (env p) (toolhead_print_time p) (toolhead_reads p)
             (clock_reads p) n (steppers p) (endstop_steppers p) (log p)).

Definition set_steppers (st : nat -> Stepper) (w : World) : World :=
  let p := printer w in
  mkWorld (self w)
          (mkPrinter (env p) (toolhead_print_time p) (toolhead_reads p)
             (clock_reads p) (endstop_waits p) st (endstop_steppers p) (log p)).

Definition emit (ev : Event) (w : World) : World :=
  let p := printer w in
  mkWorld (self w)
          (mkPrinter (env p) (toolhead_print_time p) (toolhead_reads p)
             (clock_reads p) (endstop_waits p) (steppers p)
             (endstop_steppers p) (ev :: log p)).

Definition update_stepper (st : nat -> Stepper) (i : nat) (s : Stepper)
  : nat -> Stepper :=
  fun j => if Nat.eqb j i then s else st j.

(** ** State and exception monad *)

Inductive Exn : Type :=
| EndstopError (msg : string)
| TimeoutError
| config_error (msg : string).

Inductive Result (A : Type) : Type :=
| Ok (a : A)
| Raise (e : Exn).
Arguments Ok {A} a.
Arguments Raise {A} e.

Definition M (A : Type) : Type := World -> Result A * World.

Definition ret {A} (a : A) : M A := fun w => (Ok a, w).

Definition raise {A} (e : Exn) : M A := fun w => (Raise e, w).

Definition bind {A B} (m : M A) (k : A -> M B) : M B :=
  fun w =>
    match m w with
    | (Ok a, w') => k a w'
    | (Raise e, w') => (Raise e, w')
    end.

Definition try_except {A} (m : M A) (handler : Exn -> M A) : M A :=
  fun w =>
    match m w with
    | (Ok a, w') => (Ok a, w')
    | (Raise e, w') => handler e w'
    end.

Definition gets {A} (f : World -> A) : M A := fun w => (Ok (f w), w).

Definition modify (f : World -> World) : M unit := fun w => (Ok tt, f w).

Declare Scope monad_scope.
Delimit Scope monad_scope with monad.
Notation "x <- m ;; k" := (bind m (fun x => k))
  (at level 61, m at next level, right associativity) : monad_scope.
Notation "m ;; k" := (bind m (fun _ => k))
  (at level 61, right associativity) : monad_scope.
Open Scope monad_scope.

Fixpoint for_each {A} (l : list A) (body : A -> M unit) : M unit :=
  match l with
  | [] => ret tt
  | x :: l' => body x ;; for_each l' body
  end.

(** ** Collaborators *)

(** Modelled from the spec: the clock-translation collaborator
    ([mcu.print_time_to_clock], [mcu.seconds_to_clock],
    [mcu.clock_to_print_time]) is not part of this file.  It converts a
    timeline timestamp or a duration to absolute hardware clock ticks and
    back; ticks are whole numbers counted at [mcu_freq] per second, a
    conversion to ticks keeps the whole ticks elapsed, and the conversion
    back is exact.  Exactness is an idealisation: here a tick count
    converted to the timeline and back is the same count, which binary64
    arithmetic does not give (see [clock_to_print_time_b64]). *)
Definition print_time_to_clock (e : Env) (print_time : Q) : Z :=
  Py.int (print_time * mcu_freq e).

Definition seconds_to_clock (e : Env) (time : Q) : Z :=
  Py.int (time * mcu_freq e).

Definition clock_to_print_time (e : Env) (clock : Z) : Q :=
  inject_Z clock / mcu_freq e.

(** Modelled from the spec: the same collaborator computing in binary64.
    The product with the frequency is rounded before it is truncated to
    whole ticks, and the conversion back is a rounded division. *)
Definition print_time_to_clock_b64 (e : Env) (print_time : Q) : Z :=
  Py.int (Binary64.round (print_time * mcu_freq e)).

Definition seconds_to_clock_b64 (e : Env) (time : Q) : Z :=
  Py.int (Binary64.round (time * mcu_freq e)).

Definition clock_to_print_time_b64 (e : Env) (clock : Z) : Q :=
  Binary64.round (inject_Z clock / mcu_freq e).

(** Modelled from the spec: the motion timeline exposes its last scheduled
    move time (read), which the outside world may have advanced since the
    previous read, and the insertion of a pause of a given duration.  A
    pause moves the last move time by exactly its duration, which is an
    idealisation of the toolhead's float addition. *)
Definition toolhead_get_last_move_time : M Q :=
  fun w =>
    let p := printer w in
    let t := toolhead_print_time p + last_move_advance (env p) (toolhead_reads p) in
    (Ok t, set_toolhead t (S (toolhead_reads p)) w).

Definition toolhead_dwell (delay : Q) : M unit :=
  fun w =>
    let p := printer w in
    (Ok tt, emit (EvDwell delay)
              (set_toolhead (toolhead_print_time p + delay) (toolhead_reads p) w)).

(** [mcu.estimated_print_time(reactor.monotonic())]. *)
Definition reactor_estimated_print_time : M Q :=
  fun w =>
    let p := printer w in
    (Ok (estimated_print_time (env p) (clock_reads p)),
     set_clock_reads (S (clock_reads p)) w).

(** Modelled from the spec: the actuation channel records the call.  The
    scheduling errors the channel can raise (a timestamp in the past, a
    lost connection) are not modelled: the call always returns. *)
Definition mcu_pwm_set_pwm (print_time value : Q) : M unit :=
  modify (emit (EvSetPwm print_time value)).

Definition endstop_home_start (print_time sample_time : Q) (sample_count : Z)
    (rest_time : Q) (triggered : option bool) : M unit :=
  modify (emit (EvHomeStart print_time sample_time sample_count rest_time triggered)).

Definition apply_updates (st : nat -> Stepper) (l : list (nat * Stepper))
  : nat -> Stepper :=
  fold_left (fun acc u => update_stepper acc (fst u) (snd u)) l st.

(** Modelled from the spec: the sensing primitive's wait returns once the
    expected state is confirmed or raises its timeout signal once the
    window has passed; either way the homing machinery may have rewritten
    the position bookkeeping of the steppers by then. *)
Definition endstop_home_wait (home_end_time : Q) : M unit :=
  fun w =>
    let p := printer w in
    let o := home_wait_outcome (env p) (endstop_waits p) in
    let w' := emit (EvHomeWait home_end_time)
                (set_endstop_waits (S (endstop_waits p))
                   (set_steppers (apply_updates (steppers p) (stepper_updates o)) w)) in
    if timed_out o then (Raise TimeoutError, w') else (Ok tt, w').

Definition endstop_home_prepare : M unit := modify (emit EvHomePrepare).

Definition endstop_home_finalize : M unit := modify (emit EvHomeFinalize).

Definition stepper_get_commanded_position (s : nat) (w : World) : Q :=
  commanded_position (steppers (printer w) s).

Definition stepper_get_mcu_position (s : nat) (w : World) : Z :=
  mcu_position (steppers (printer w) s).

(** [set_commanded_position] moves the solver's position and leaves the
    hardware step counter alone. *)
Definition stepper_set_commanded_position (s : nat) (pos : Q) : M unit :=
  fun w =>
    let st := steppers (printer w) in
    (Ok tt, emit (EvSetCommandedPosition s pos)
              (set_steppers
                 (update_stepper st s (mkStepper pos (mcu_position (st s)))) w)).

(** ** Configuration and construction *)

Record Config : Type := mkConfig {
  z_offset : Q;
  triggered_on_pin_up_touch_mode : option bool;
  triggered_on_pin_up : option bool;
  cfg_pin_move_time : option Q
}.

Definition config_get {A} (o : option A) (default : A) : A :=
  match o with Some v => v | None => default end.

(** The "Calculate pin move time" lines of [__init__]. *)
Definition calc_pin_move_time (cfg : Config) : Q :=
  let pmt := Py.max (config_get (cfg_pin_move_time cfg) 0.200) MIN_CMD_TIME in
  Py.ceil (pmt / SIGNAL_PERIOD) * SIGNAL_PERIOD.

Definition init (cfg : Config) : BLTouch :=
  mkBLTouch (z_offset cfg)
            0.0
            0.0
            (config_get (triggered_on_pin_up_touch_mode cfg) true)
            (config_get (triggered_on_pin_up cfg) false)
            []
            (calc_pin_move_time cfg).

(** ** Methods of [BLTouchEndstopWrapper] *)

Definition sync_mcu_print_time : M unit :=
  est_time <- reactor_estimated_print_time ;;
  modify (fun w =>
    set_next_cmd_time (Py.max (next_cmd_time (self w)) (est_time + MIN_CMD_TIME)) w).

Definition sync_print_time : M unit :=
  print_time <- toolhead_get_last_move_time ;;
  nct <- gets (fun w => next_cmd_time (self w)) ;;
  if Py.ltb print_time nct
  then toolhead_dwell (nct - print_time)
  else modify (set_next_cmd_time print_time).

Definition send_cmd (cmd : Command) (duration : Q) : M Q :=
  nct <- gets (fun w => next_cmd_time (self w)) ;;
  mcu_pwm_set_pwm nct (Commands cmd / SIGNAL_PERIOD) ;;
  mcu <- gets (fun w => env (printer w)) ;;
  let cmd_clock := print_time_to_clock mcu nct in
  let cmd_clock := (cmd_clock + seconds_to_clock mcu (Py.max duration MIN_CMD_TIME))%Z in
  modify (set_next_cmd_time (clock_to_print_time mcu cmd_clock)) ;;
  gets (fun w => next_cmd_time (self w)).

(** [send_cmd] with the rounding of each float operation written out. *)
Definition send_cmd_b64 (cmd : Command) (duration : Q) : M Q :=
  nct <- gets (fun w => next_cmd_time (self w)) ;;
  mcu_pwm_set_pwm nct
    (Binary64.round (Binary64.round (Commands cmd) / Binary64.round SIGNAL_PERIOD)) ;;
  mcu <- gets (fun w => env (printer w)) ;;
  let cmd_clock := print_time_to_clock_b64 mcu nct in
  let cmd_clock :=
    (cmd_clock + seconds_to_clock_b64 mcu (Py.max duration MIN_CMD_TIME_b64))%Z in
  modify (set_next_cmd_time (clock_to_print_time_b64 mcu cmd_clock)) ;;
  gets (fun w => next_cmd_time (self w)).

(** [n] calls of [send_cmd(cmd)] in a row. *)
Fixpoint send_cmd_b64_times (n : nat) (cmd : Command) : M unit :=
  match n with
  | O => ret tt
  | S n' => send_cmd_b64 cmd MIN_CMD_TIME_b64 ;; send_cmd_b64_times n' cmd
  end.

(** [send_cmd(cmd)] with the default [duration=MIN_CMD_TIME]. *)
Definition send_cmd_default (cmd : Command) : M Q := send_cmd cmd MIN_CMD_TIME.

Definition verify_state (check_start_time check_end_time : Q)
    (triggered : bool) (msg : string) : M unit :=
  prev_positions <- gets (fun w =>
    map (fun s => stepper_get_commanded_position s w)
        (endstop_steppers (printer w))) ;;
  endstop_home_start check_start_time ENDSTOP_SAMPLE_TIME ENDSTOP_SAMPLE_COUNT
                     ENDSTOP_REST_TIME (Some triggered) ;;
  try_except (endstop_home_wait check_end_time)
    (fun e => match e with
              | TimeoutError => raise (EndstopError ("BLTouch failed to " ++ msg))
              | _ => raise e
              end) ;;
  cur <- gets (fun w => endstop_steppers (printer w)) ;;
  for_each (combine cur prev_positions)
    (fun sp => stepper_set_commanded_position (fst sp) (snd sp)).

Definition raise_probe : M unit :=
  send_cmd_default reset ;;
  pmt <- gets (fun w => pin_move_time (self w)) ;;
  check_start_time <- send_cmd pin_up pmt ;;
  check_end_time <- send_cmd_default cmd_None ;;
  triggered <- gets (fun w => pin_up_triggered (self w)) ;;
  verify_state check_start_time check_end_time triggered "raise probe".

Definition printer_state (state : string) : M unit :=
  if String.eqb state "connect"
  then try_except (sync_mcu_print_time ;; raise_probe)
         (fun e => match e with
                   | EndstopError msg => raise (config_error msg)
                   | _ => raise e
                   end)
  else ret tt.

Definition test_sensor : M unit :=
  put <- gets (fun w => pin_up_touch_triggered (self w)) ;;
  pu <- gets (fun w => pin_up_triggered (self w)) ;;
  if negb put || pu
  then ret tt
  else
    print_time <- toolhead_get_last_move_time ;;
    ntt <- gets (fun w => next_test_time (self w)) ;;
    if Py.ltb print_time ntt
    then modify (set_next_test_time (print_time + TEST_TIME))
    else
      sync_print_time ;;
      pmt <- gets (fun w => pin_move_time (self w)) ;;
      check_start_time <- send_cmd reset pmt ;;
      check_end_time <- send_cmd_default touch_mode ;;
      send_cmd_default cmd_None ;;
      verify_state check_start_time check_end_time true "verify sensor state" ;;
      modify (set_next_test_time (check_end_time + TEST_TIME)) ;;
      sync_print_time.

Definition home_prepare : M unit :=
  test_sensor ;;
  sync_print_time ;;
  pmt <- gets (fun w => pin_move_time (self w)) ;;
  send_cmd pin_down (pmt - MIN_CMD_TIME) ;;
  send_cmd_default cmd_None ;;
  sync_print_time ;;
  endstop_home_prepare ;;
  modify (fun w =>
    set_start_mcu_pos
      (map (fun s => (s, stepper_get_mcu_position s w))
           (endstop_steppers (printer w))) w).

(** The deploy check of [home_finalize]: the first snapshotted stepper
    whose hardware counter still has its snapshot value raises. *)
Fixpoint check_deployed (snapshot : list (nat * Z)) : M unit :=
  match snapshot with
  | [] => ret tt
  | (s, mcu_pos) :: rest =>
      cur <- gets (stepper_get_mcu_position s) ;;
      if Z.eqb cur mcu_pos
      then raise (EndstopError "BLTouch failed to deploy")
      else check_deployed rest
  end.

(** The statements of [home_finalize] ahead of the deploy check. *)
Definition home_finalize_retract : M unit :=
  sync_mcu_print_time ;;
  raise_probe ;;
  sync_print_time.

Definition home_finalize : M unit :=
  home_finalize_retract ;;
  snapshot <- gets (fun w => start_mcu_pos (self w)) ;;
  check_deployed snapshot ;;
  endstop_home_finalize.

Definition home_start (print_time sample_time : Q) (sample_count : Z)
    (rest_time : Q) : M unit :=
  let rest_time := Py.min rest_time ENDSTOP_REST_TIME in
  endstop_home_start print_time sample_time sample_count rest_time None.

Definition get_position_endstop : M Q :=
  gets (fun w => position_endstop (self w)).

Definition cmd_BLTOUCH_DEBUG_help : string :=
  "Send a command to the bltouch for debugging".

(** [params] is reduced to what [gcode.get_str('COMMAND', params, None)]
    returns. *)
Definition cmd_BLTOUCH_DEBUG (param : option string) : M unit :=
  let list_commands :=
    modify (emit (EvRespondInfo
      "BLTouch commands: pin_down, pin_up, reset, self_test, touch_mode")) in
  match param with
  | None => list_commands
  | Some name =>
      match lookup_command name with
      | None => list_commands
      | Some cmd =>
          let msg := ("Sending BLTOUCH_DEBUG COMMAND=" ++ name)%string in
          modify (emit (EvRespondInfo msg)) ;;
          modify (emit (EvLoggingInfo msg)) ;;
          sync_print_time ;;
          pmt <- gets (fun w => pin_move_time (self w)) ;;
          send_cmd cmd pmt ;;
          send_cmd_default cmd_None ;;
          sync_print_time
      end
  end.

(** The formatted text of the log line is not modelled. *)
Definition sensor_debug_callback (eventtime : Q) (state : bool) : M unit :=
  modify (emit (EvLoggingInfo "bltouch sensor")).

(** ** Operations and runs *)

(** The entry points through which the rest of the printer drives the
    wrapper. *)
Inductive Op : Type :=
| op_printer_state (state : string)
| op_sync_mcu_print_time
| op_sync_print_time
| op_send_cmd (cmd : Command) (duration : Q)
| op_verify_state (check_start_time check_end_time : Q)
                  (triggered : bool) (msg : string)
| op_raise_probe
| op_test_sensor
| op_home_prepare
| op_home_finalize
| op_home_start (print_time sample_time : Q) (sample_count : Z) (rest_time : Q)
| op_get_position_endstop
| op_cmd_BLTOUCH_DEBUG (param : option string)
| op_sensor_debug_callback (eventtime : Q) (state : bool).

(** The world an operation leaves behind, whether it returned or raised. *)
Definition exec (op : Op) (w : World) : World :=
  match op with
  | op_printer_state state => snd (printer_state state w)
  | op_sync_mcu_print_time => snd (sync_mcu_print_time w)
  | op_sync_print_time => snd (sync_print_time w)
  | op_send_cmd cmd duration => snd (send_cmd cmd duration w)
  | op_verify_state cs ce triggered msg => snd (verify_state cs ce triggered msg w)
  | op_raise_probe => snd (raise_probe w)
  | op_test_sensor => snd (test_sensor w)
  | op_home_prepare => snd (home_prepare w)
  | op_home_finalize => snd (home_finalize w)
  | op_home_start pt st sc rt => snd (home_start pt st sc rt w)
  | op_get_position_endstop => snd (get_position_endstop w)
  | op_cmd_BLTOUCH_DEBUG param => snd (cmd_BLTOUCH_DEBUG param w)
  | op_sensor_debug_callback eventtime state =>
      snd (sensor_debug_callback eventtime state w)
  end.

Definition run (ops : list Op) (w : World) : World :=
  fold_left (fun acc op => exec op acc) ops w.

(** ** Observations on a world *)

(** Number of actuation commands ([set_pwm]) issued so far. *)
Definition is_set_pwm (ev : Event) : bool :=
  match ev with EvSetPwm _ _ => true | _ => false end.

Definition commands_issued (w : World) : nat :=
  List.length (filter is_set_pwm (log (printer w))).

Definition is_home_finalize (ev : Event) : bool :=
  match ev with EvHomeFinalize => true | _ => false end.

(** Number of times the sensing channel's finalize hook was reached. *)
Definition finalize_hooks (w : World) : nat :=
  List.length (filter is_home_finalize (log (printer w))).

(** Number of realtime clock reads, one per [sync_mcu_print_time]. *)
Definition realtime_syncs (w : World) : nat := clock_reads (printer w).

(** The value the next [toolhead.get_last_move_time()] will return. *)
Definition current_motion_time (w : World) : Q :=
  let p := printer w in
  toolhead_print_time p + last_move_advance (env p) (toolhead_reads p).

(** ** Example worlds *)

Definition default_config : Config := mkConfig 2.5 None None None.

(** A 16 MHz controller, an idle toolhead, and an endstop wait that
    confirms the state after the homing machinery moved stepper 0. *)
Definition env_confirms : Env :=
  mkEnv 16000000 (fun _ => 0) (fun _ => 1)
        (fun _ => mkWaitOutcome false [(0%nat, mkStepper 7 12)]).

(** The same controller with an endstop wait that times out. *)
Definition env_times_out : Env :=
  mkEnv 16000000 (fun _ => 0) (fun _ => 1)
        (fun _ => mkWaitOutcome true [(0%nat, mkStepper 7 12)]).

Definition printer_at_rest (e : Env) (ids : list nat) : Printer :=
  mkPrinter e 0 0 0 0 (fun _ => mkStepper 0 0) ids [].

Definition world_at_rest (cfg : Config) (e : Env) (ids : list nat) : World :=
  mkWorld (init cfg) (printer_at_rest e ids).

(** Wait number 0 confirms, wait number 1 times out; no stepper moves. *)
Definition env_stuck_pin : Env :=
  mkEnv 16000000 (fun _ => 0) (fun _ => 1)
        (fun n => mkWaitOutcome (Nat.eqb n 1) []).

(** Wait number 0 confirms; wait number 1 moves stepper 0 and times out. *)
Definition env_moved_then_stuck : Env :=
  mkEnv 16000000 (fun _ => 0) (fun _ => 1)
        (fun n => if Nat.eqb n 1
                  then mkWaitOutcome true [(0%nat, mkStepper 0 5)]
                  else mkWaitOutcome false []).

(** Every wait confirms; wait number 1 moves stepper 0 only. *)
Definition env_one_moved : Env :=
  mkEnv 16000000 (fun _ => 0) (fun _ => 1)
        (fun n => mkWaitOutcome false
                    (if Nat.eqb n 1 then [(0%nat, mkStepper 0 5)] else [])).

(** Every wait confirms and no stepper ever moves. *)
Definition env_nothing_moves : Env :=
  mkEnv 16000000 (fun _ => 0) (fun _ => 1) (fun _ => mkWaitOutcome false []).

(** The operations that read the realtime clock. *)
Definition syncs_from_realtime (op : Op) : bool :=
  match op with
  | op_sync_mcu_print_time => true
  | op_printer_state state => String.eqb state "connect"
  | op_home_finalize => true
  | _ => false
  end.

(** ** Assumptions on the collaborators *)

(** The controller clock runs, and one tick is no longer than the minimum
    command duration. *)
Definition clock_ok (e : Env) : Prop :=
  0 < mcu_freq e /\ 1 <= MIN_CMD_TIME * mcu_freq e.

(** The toolhead's last move time never goes back between two reads. *)
Definition timeline_ok (e : Env) : Prop :=
  forall n, 0 <= last_move_advance e n.

Definition env_ok (e : Env) : Prop := clock_ok e /\ timeline_ok e.

(** Length of one clock tick on the timeline. *)
Definition tick (e : Env) : Q := / mcu_freq e.

(** The value [send_cmd] gives [next_cmd_time]. *)
Definition issue_time (e : Env) (nct duration : Q) : Q :=
  clock_to_print_time e
    (print_time_to_clock e nct
     + seconds_to_clock e (Py.max duration MIN_CMD_TIME))%Z.

(** The value [send_cmd_b64] gives [next_cmd_time]. *)
Definition issue_time_b64 (e : Env) (nct duration : Q) : Q :=
  clock_to_print_time_b64 e
    (print_time_to_clock_b64 e nct
     + seconds_to_clock_b64 e (Py.max duration MIN_CMD_TIME_b64))%Z.

(** The toolhead read 0.9 tick past the origin. *)
Definition env_off_grid : Env :=
  mkEnv 16000000 (fun _ => 9 # 160000000) (fun _ => 1)
        (fun _ => mkWaitOutcome false []).

(** ** Worlds left by the timeline primitives *)

(** The world [sync_print_time] returns from. *)
Definition synced (w : World) : World :=
  let p := printer w in
  let print_time := current_motion_time w in
  let nct := next_cmd_time (self w) in
  let w1 := set_toolhead print_time (S (toolhead_reads p)) w in
  if Py.ltb print_time nct
  then emit (EvDwell (nct - print_time))
         (set_toolhead (print_time + (nct - print_time)) (S (toolhead_reads p)) w1)
  else set_next_cmd_time print_time w1.

(** The world [send_cmd cmd duration] returns from. *)
Definition sent (cmd : Command) (duration : Q) (w : World) : World :=
  let nct := next_cmd_time (self w) in
  set_next_cmd_time (issue_time (env (printer w)) nct duration)
    (emit (EvSetPwm nct (Commands cmd / SIGNAL_PERIOD)) w).

(** Both cursors and the motion timeline lie no earlier than before, under
    the assumptions on the collaborators. *)
Definition forward (w w' : World) : Prop :=
  env (printer w') = env (printer w) /\
  (env_ok (env (printer w)) ->
   next_cmd_time (self w) <= next_cmd_time (self w') /\
   toolhead_print_time (printer w) <= toolhead_print_time (printer w')).

(** A world between two operations: the collaborators behave and the next
    self-test is due at most one retest interval after the toolhead's last
    move time. *)
Definition settled (w : World) : Prop :=
  env_ok (env (printer w)) /\
  next_test_time (self w) <= toolhead_print_time (printer w) + TEST_TIME.

(** The self-test is configured to run. *)
Definition test_enabled (w : World) : Prop :=
  pin_up_touch_triggered (self w) = true /\ pin_up_triggered (self w) = false.

(** ** Worlds inside [test_sensor] *)

(** The world right after [toolhead.get_last_move_time()]. *)
Definition after_read (w : World) : World :=
  set_toolhead (current_motion_time w) (S (toolhead_reads (printer w))) w.

(** The worlds after [sync_print_time] and the first, second and third
    command of a self-test started in [w]; the returns of the first and
    second command are the verification window. *)
Definition test_reset (w : World) : World :=
  sent reset (pin_move_time (self (synced w))) (synced w).

Definition test_touch_mode (w : World) : World :=
  sent touch_mode MIN_CMD_TIME (test_reset w).

Definition test_idle (w : World) : World :=
  sent cmd_None MIN_CMD_TIME (test_touch_mode w).

Definition test_window_start (w : World) : Q := next_cmd_time (self (test_reset w)).

Definition test_window_end (w : World) : Q := next_cmd_time (self (test_touch_mode w)).

(** The operations that run the self-test policy. *)
Definition runs_self_test (op : Op) : bool :=
  match op with
  | op_test_sensor | op_home_prepare => true
  | _ => false
  end.

(** Every wait times out and no stepper moves. *)
Definition env_never_confirms : Env :=
  mkEnv 16000000 (fun _ => 0) (fun _ => 1) (fun _ => mkWaitOutcome true []).

(** ** Relations and projections used in the proofs *)

(** What a step may change without touching the wrapper's cursors, the
    timelines or the command counters: stepper bookkeeping and the log of
    sensing-channel calls. *)
Record same_timeline (w w' : World) : Prop := mkSameTimeline {
  st_self : self w' = self w;
  st_env : env (printer w') = env (printer w);
  st_toolhead : toolhead_print_time (printer w') = toolhead_print_time (printer w);
  st_reads : toolhead_reads (printer w') = toolhead_reads (printer w);
  st_clock : clock_reads (printer w') = clock_reads (printer w);
  st_ids : endstop_steppers (printer w') = endstop_steppers (printer w);
  st_cmds : commands_issued w' = commands_issued w;
  st_hooks : finalize_hooks w' = finalize_hooks w
}.

(** The wait inside [verify_state]: what it leaves behind. *)
Definition after_wait (check_start_time check_end_time : Q) (triggered : bool)
    (w : World) : World :=
  let p := printer w in
  let o := home_wait_outcome (env p) (endstop_waits p) in
  let w0 := emit (EvHomeStart check_start_time ENDSTOP_SAMPLE_TIME
                    ENDSTOP_SAMPLE_COUNT ENDSTOP_REST_TIME (Some triggered)) w in
  emit (EvHomeWait check_end_time)
    (set_endstop_waits (S (endstop_waits p))
       (set_steppers (apply_updates (steppers p) (stepper_updates o)) w0)).

(** Every run of [m], returning or raising, ends in a world related by
    [R] to the one it started from. *)
Definition preserves (R : World -> World -> Prop) {A} (m : M A) : Prop :=
  forall w, R w (snd (m w)).

(** A projection of the world that a program leaves as it found it. *)
Definition keeps {X} (f : World -> X) (w w' : World) : Prop := f w' = f w.

(** What a homing attempt records: the snapshot and the hook count. *)
Definition attempt_record (w : World) : list (nat * Z) * nat :=
  (start_mcu_pos (self w), finalize_hooks w).

(** The exception of the deploy check. *)
Definition failed_to_deploy : Exn := EndstopError "BLTouch failed to deploy".

(** [next_test_time] as a projection of the world. *)
Definition next_test_time_of (w : World) : Q := next_test_time (self w).

(** The deployment policy flags of the wrapper. *)
Definition policy_flags (w : World) : bool * bool :=
  (pin_up_touch_triggered (self w), pin_up_triggered (self w)).

(** A clock of one tick per second, and a toolhead read 0.9 s after the
    origin. *)
Definition env_slow_clock : Env :=
  mkEnv 1 (fun _ => 0.9) (fun _ => 1) (fun _ => mkWaitOutcome false []).

(** ** Worlds inside [raise_probe], [home_prepare] and the debug command *)

(** The worlds after the first, second and third command of
    [raise_probe]; the returns of the second and third command are the
    verification window. *)
Definition probe_reset (w : World) : World := sent reset MIN_CMD_TIME w.

Definition probe_pin_up (w : World) : World :=
  sent pin_up (pin_move_time (self (probe_reset w))) (probe_reset w).

Definition probe_idle (w : World) : World :=
  sent cmd_None MIN_CMD_TIME (probe_pin_up w).

Definition probe_window_start (w : World) : Q :=
  next_cmd_time (self (probe_pin_up w)).

Definition probe_window_end (w : World) : Q :=
  next_cmd_time (self (probe_idle w)).

(** The hardware counters of the endstop's steppers. *)
Definition mcu_positions (w : World) : list (nat * Z) :=
  map (fun s => (s, stepper_get_mcu_position s w)) (endstop_steppers (printer w)).

(** The world [home_prepare] returns from when its self-test policy
    returned in [w]. *)
Definition deployed (w : World) : World :=
  let w1 := synced w in
  let w2 := sent pin_down (pin_move_time (self w1) - MIN_CMD_TIME) w1 in
  let w3 := synced (sent cmd_None MIN_CMD_TIME w2) in
  let w4 := emit EvHomePrepare w3 in
  set_start_mcu_pos (mcu_positions w4) w4.

(** The world [cmd_BLTOUCH_DEBUG] returns from for the valid command
    [cmd] given under the name [name]. *)
Definition debugged (name : string) (cmd : Command) (w : World) : World :=
  let msg := ("Sending BLTOUCH_DEBUG COMMAND=" ++ name)%string in
  let w1 := synced (emit (EvLoggingInfo msg) (emit (EvRespondInfo msg) w)) in
  synced (sent cmd_None MIN_CMD_TIME (sent cmd (pin_move_time (self w1)) w1)).

(** The string keys of the [Commands] dictionary. *)
Definition command_name (cmd : Command) : option string :=
  match cmd with
  | cmd_None => None
  | pin_down => Some "pin_down"%string
  | touch_mode => Some "touch_mode"%string
  | pin_up => Some "pin_up"%string
  | self_test => Some "self_test"%string
  | reset => Some "reset"%string
  end.

(** ** Further observations *)

(** An operation with its outcome; values returned are dropped. *)
Definition call (op : Op) : M unit :=
  match op with
  | op_printer_state state => printer_state state
  | op_sync_mcu_print_time => sync_mcu_print_time
  | op_sync_print_time => sync_print_time
  | op_send_cmd cmd duration => send_cmd cmd duration ;; ret tt
  | op_verify_state cs ce triggered msg => verify_state cs ce triggered msg
  | op_raise_probe => raise_probe
  | op_test_sensor => test_sensor
  | op_home_prepare => home_prepare
  | op_home_finalize => home_finalize
  | op_home_start pt st sc rt => home_start pt st sc rt
  | op_get_position_endstop => get_position_endstop ;; ret tt
  | op_cmd_BLTOUCH_DEBUG param => cmd_BLTOUCH_DEBUG param
  | op_sensor_debug_callback eventtime state =>
      sensor_debug_callback eventtime state
  end.


(** The print times of the [set_pwm] calls, most recent first. *)
Fixpoint pwm_times (l : list Event) : list Q :=
  match l with
  | [] => []
  | EvSetPwm t _ :: l' => t :: pwm_times l'
  | _ :: l' => pwm_times l'
  end.

(** [l] strictly decreases and stays strictly below [bound]. *)
Fixpoint descending (bound : Q) (l : list Q) : Prop :=
  match l with
  | [] => True
  | t :: l' => t < bound /\ descending t l'
  end.

(** Every command so far was scheduled strictly after the one before it
    and strictly before the cursor. *)
Definition scheduled_in_order (w : World) : Prop :=
  descending (next_cmd_time (self w)) (pwm_times (log (printer w))).

(** The delays of the [toolhead.dwell] calls, most recent first. *)
Fixpoint dwell_delays (l : list Event) : list Q :=
  match l with
  | [] => []
  | EvDwell d :: l' => d :: dwell_delays l'
  | _ :: l' => dwell_delays l'
  end.

Definition dwells_positive (w : World) : Prop :=
  Forall (fun d => 0 < d) (dwell_delays (log (printer w))).

(** The calls made on the sensing channel, most recent first. *)
Definition is_sensing_call (ev : Event) : bool :=
  match ev with
  | EvHomeStart _ _ _ _ _ | EvHomeWait _ | EvHomePrepare | EvHomeFinalize => true
  | _ => false
  end.

Definition sensing_calls (w : World) : list Event :=
  filter is_sensing_call (log (printer w)).

(** No endstop wait ever reports a stepper as moved. *)
Definition steppers_never_move (e : Env) : Prop :=
  forall n, stepper_updates (home_wait_outcome e n) = [].

(** The commanded positions of the endstop's steppers. *)
Definition commanded_positions (w : World) : list Q :=
  map (fun s => stepper_get_commanded_position s w) (endstop_steppers (printer w)).

(** A property of the world that a step hands on, under an assumption on
    the collaborators. *)
Definition carries (A : Env -> Prop) (P : World -> Prop) (w w' : World) : Prop :=
  env (printer w') = env (printer w) /\
  (A (env (printer w)) -> P w -> P w').

(** The fields of the wrapper that are set at construction only. *)
Definition construction_fields (w : World) : Q * Q :=
  (position_endstop (self w), pin_move_time (self w)).

(** What the wrapper knows of the endstop: its steppers. *)
Definition endstop_steppers_of (w : World) : list nat :=
  endstop_steppers (printer w).

(** A step that leaves every hardware counter as it was, provided no
    endstop wait reports movement. *)
Definition counters_kept (w w' : World) : Prop :=
  env (printer w') = env (printer w) /\
  (steppers_never_move (env (printer w)) ->
   forall s, stepper_get_mcu_position s w' = stepper_get_mcu_position s w).

(** The [set_pwm] calls, most recent first. *)
Definition pwm_calls (w : World) : list Event :=
  filter is_set_pwm (log (printer w)).

(** The messages sent to the user and to the log, most recent first. *)
Definition is_info_call (ev : Event) : bool :=
  match ev with
  | EvRespondInfo _ | EvLoggingInfo _ => true
  | _ => false
  end.

Definition info_calls (w : World) : list Event :=
  filter is_info_call (log (printer w)).

(** * Properties *)

(** ** Python numerics *)

Lemma ltb_true_iff (x y : Q) : Py.ltb x y = true <-> x < y.
Proof.
  unfold Py.ltb. rewrite negb_true_iff. split; intro H.
  - apply Qnot_le_lt. intro Hle. apply Qle_bool_iff in Hle. congruence.
  - destruct (Qle_bool y x) eqn:E; [|reflexivity].
    apply Qle_bool_iff in E. exfalso. exact (Qlt_not_le _ _ H E).
Qed.

Lemma ltb_false_iff (x y : Q) : Py.ltb x y = false <-> y <= x.
Proof.
  unfold Py.ltb. rewrite negb_false_iff. apply Qle_bool_iff.
Qed.

Lemma max_cases (a b : Q) :
  (a < b /\ Py.max a b = b) \/ (b <= a /\ Py.max a b = a).
Proof.
  unfold Py.max. destruct (Py.ltb a b) eqn:E.
  - left. split; [now apply ltb_true_iff | reflexivity].
  - right. split; [now apply ltb_false_iff | reflexivity].
Qed.

Lemma min_cases (a b : Q) :
  (b < a /\ Py.min a b = b) \/ (a <= b /\ Py.min a b = a).
Proof.
  unfold Py.min. destruct (Py.ltb b a) eqn:E.
  - left. split; [now apply ltb_true_iff | reflexivity].
  - right. split; [now apply ltb_false_iff | reflexivity].
Qed.

Lemma max_is_Qmax (a b : Q) : Py.max a b == Qmax a b.
Proof.
  destruct (max_cases a b) as [[H E] | [H E]]; rewrite E.
  - symmetry. apply Q.max_r. now apply Qlt_le_weak.
  - symmetry. now apply Q.max_l.
Qed.

Lemma min_is_Qmin (a b : Q) : Py.min a b == Qmin a b.
Proof.
  destruct (min_cases a b) as [[H E] | [H E]]; rewrite E.
  - symmetry. apply Q.min_r. now apply Qlt_le_weak.
  - symmetry. now apply Q.min_l.
Qed.

Lemma max_lub_l (a b : Q) : a <= Py.max a b.
Proof. destruct (max_cases a b) as [[H E] | [H E]]; rewrite E; lra. Qed.

Lemma max_lub_r (a b : Q) : b <= Py.max a b.
Proof. destruct (max_cases a b) as [[H E] | [H E]]; rewrite E; lra. Qed.

(** Truncation toward zero loses less than one unit and never rounds a
    whole number. *)
Lemma int_gt_pred (x : Q) : x - 1 < inject_Z (Py.int x).
Proof.
  unfold Py.int. destruct (Qle_bool 0 x).
  - pose proof (Qlt_floor x) as H. rewrite inject_Z_plus in H.
    change (inject_Z 1) with 1 in H. lra.
  - pose proof (Qle_ceiling x). lra.
Qed.

Lemma int_le_nonneg (x : Q) : 0 <= x -> inject_Z (Py.int x) <= x.
Proof.
  intro H. unfold Py.int. apply Qle_bool_iff in H. rewrite H. apply Qfloor_le.
Qed.

Lemma int_monotone (x y : Q) : x <= y -> (Py.int x <= Py.int y)%Z.
Proof.
  intro H. unfold Py.int.
  destruct (Qle_bool 0 x) eqn:Ex, (Qle_bool 0 y) eqn:Ey.
  - now apply Qfloor_resp_le.
  - apply Qle_bool_iff in Ex.
    assert (Hy : 0 <= y) by lra. apply Qle_bool_iff in Hy. congruence.
  - rewrite Zle_Qle.
    assert (Hx : x < 0).
    { apply Qnot_le_lt. intro Hx. apply Qle_bool_iff in Hx. congruence. }
    apply Qle_bool_iff in Ey.
    assert (H0 : (Qceiling x <= 0)%Z).
    { change 0%Z with (Qceiling (inject_Z 0)) at 1. rewrite Qceiling_Z.
      rewrite <- (Qceiling_Z 0). apply Qceiling_resp_le.
      change (inject_Z 0) with 0. lra. }
    assert (H1 : (0 <= Qfloor y)%Z).
    { rewrite <- (Qfloor_Z 0). apply Qfloor_resp_le.
      change (inject_Z 0) with 0. lra. }
    rewrite <- Zle_Qle. lia.
  - now apply Qceiling_resp_le.
Qed.

Lemma int_of_whole (z : Z) (x : Q) : x == inject_Z z -> Py.int x = z.
Proof.
  intro H. unfold Py.int.
  destruct (Qle_bool 0 x).
  - rewrite H. apply Qfloor_Z.
  - rewrite H. apply Qceiling_Z.
Qed.

(** ** Construction: the pin move time *)

Lemma SIGNAL_PERIOD_pos : 0 < SIGNAL_PERIOD.
Proof. reflexivity. Qed.

Lemma MIN_CMD_TIME_pos : 0 < MIN_CMD_TIME.
Proof. reflexivity. Qed.

(** C5.  The pin move time fixed at construction is a whole multiple
    [k * SIGNAL_PERIOD] of the signal period, it is at least the larger of
    the configured [pin_move_time] (0.200 when absent) and the minimum
    command duration, and no smaller multiple of the period is; in
    particular it is at least the minimum command duration. *)
Theorem pin_move_time_least_multiple (cfg : Config) :
  let wanted := Qmax (config_get (cfg_pin_move_time cfg) 0.200) MIN_CMD_TIME in
  let pmt := pin_move_time (init cfg) in
  exists k : Z,
    pmt == inject_Z k * SIGNAL_PERIOD /\
    wanted <= pmt /\
    (forall k' : Z, wanted <= inject_Z k' * SIGNAL_PERIOD -> (k <= k')%Z) /\
    MIN_CMD_TIME <= pmt.
Proof.
  intros wanted pmt.
  set (raw := Py.max (config_get (cfg_pin_move_time cfg) 0.200) MIN_CMD_TIME).
  assert (Hraw : raw == wanted) by apply max_is_Qmax.
  assert (Hmin : MIN_CMD_TIME <= wanted) by apply Q.le_max_r.
  exists (Qceiling (raw / SIGNAL_PERIOD)).
  assert (Hpmt : pmt == inject_Z (Qceiling (raw / SIGNAL_PERIOD)) * SIGNAL_PERIOD)
    by reflexivity.
  assert (Hup : wanted <= pmt).
  { rewrite Hpmt, <- Hraw.
    pose proof (Qle_ceiling (raw / SIGNAL_PERIOD)) as Hc.
    apply (Qmult_le_compat_r _ _ SIGNAL_PERIOD) in Hc;
      [| apply Qlt_le_weak, SIGNAL_PERIOD_pos].
    assert (Hd : raw / SIGNAL_PERIOD * SIGNAL_PERIOD == raw).
    { apply Qdiv_mult_l. intro H0. discriminate H0. }
    rewrite Hd in Hc. exact Hc. }
  split; [exact Hpmt |]. split; [exact Hup |]. split.
  - intros k' Hk'.
    rewrite <- (Qceiling_Z k'). apply Qceiling_resp_le.
    apply Qle_shift_div_r; [apply SIGNAL_PERIOD_pos |].
    rewrite Hraw. exact Hk'.
  - lra.
Qed.

(** ** [home_start]: clamping of the rest time *)

(** C9.  [home_start] makes exactly one call on the sensing channel, its
    arm operation, with the print time, sample time and sample count it was
    given and with the rest time [min(rest_time, ENDSTOP_REST_TIME)], the
    cap being one millisecond. *)
Theorem home_start_clamps_rest_time
    (print_time sample_time : Q) (sample_count : Z) (rest_time : Q) (w : World) :
  exists r : Q,
    home_start print_time sample_time sample_count rest_time w =
      (Ok tt, emit (EvHomeStart print_time sample_time sample_count r None) w) /\
    (r = rest_time \/ r = ENDSTOP_REST_TIME) /\
    r == Qmin rest_time ENDSTOP_REST_TIME /\
    ENDSTOP_REST_TIME == 1 / 1000.
Proof.
  exists (Py.min rest_time ENDSTOP_REST_TIME).
  split; [reflexivity |]. split; [| split].
  - destruct (min_cases rest_time ENDSTOP_REST_TIME) as [[_ E] | [_ E]];
      rewrite E; auto.
  - apply min_is_Qmin.
  - reflexivity.
Qed.

(** ** Self-test policy: the guard *)

Lemma test_sensor_disabled (w : World) :
  negb (pin_up_touch_triggered (self w)) || pin_up_triggered (self w) = true ->
  test_sensor w = (Ok tt, w).
Proof.
  intro H. unfold test_sensor, bind, gets, ret. cbn [fst snd].
  rewrite H. reflexivity.
Qed.

(** ** Verification engine *)

Lemma same_timeline_refl (w : World) : same_timeline w w.
Proof. constructor; reflexivity. Qed.

Lemma same_timeline_trans (w1 w2 w3 : World) :
  same_timeline w1 w2 -> same_timeline w2 w3 -> same_timeline w1 w3.
Proof.
  intros [] []. constructor; congruence.
Qed.

(** The restoring loop of [verify_state], run on the steppers [ids] with
    the positions [g] read off them earlier. *)
Lemma restore_positions (g : nat -> Q) (ids : list nat) :
  forall w : World,
  exists w',
    for_each (combine ids (map g ids))
      (fun sp => stepper_set_commanded_position (fst sp) (snd sp)) w = (Ok tt, w') /\
    same_timeline w w' /\
    endstop_waits (printer w') = endstop_waits (printer w) /\
    (forall s, In s ids -> stepper_get_commanded_position s w' = g s) /\
    (forall s, ~ In s ids -> steppers (printer w') s = steppers (printer w) s) /\
    (forall s, stepper_get_mcu_position s w' = stepper_get_mcu_position s w).
Proof.
  induction ids as [| x ids IH]; intro w.
  - exists w. cbn. split; [reflexivity |].
    split; [apply same_timeline_refl |]. split; [reflexivity |].
    split; [intros s [] |]. split; reflexivity.
  - cbn [map combine for_each]. unfold bind at 1.
    cbn [stepper_set_commanded_position fst snd].
    set (w1 := emit _ _).
    destruct (IH w1) as (w' & Hrun & Hst & Hwaits & Hin & Hout & Hmcu).
    exists w'. rewrite Hrun. split; [reflexivity |].
    split; [| split; [| split; [| split]]].
    + apply (same_timeline_trans w w1 w'); [| exact Hst].
      constructor; reflexivity.
    + rewrite Hwaits. reflexivity.
    + intros s [Hs | Hs]; [| now apply Hin].
      subst s. destruct (in_dec Nat.eq_dec x ids) as [Hx | Hx]; [now apply Hin |].
      unfold stepper_get_commanded_position. rewrite (Hout x Hx).
      subst w1. unfold update_stepper. cbn. rewrite Nat.eqb_refl. reflexivity.
    + intros s Hs. rewrite Hout by (intro Hin'; apply Hs; now right).
      subst w1. unfold update_stepper. cbn.
      destruct (Nat.eqb s x) eqn:E; [| reflexivity].
      apply Nat.eqb_eq in E. subst s. exfalso. apply Hs. now left.
    + intro s. rewrite Hmcu. subst w1.
      unfold stepper_get_mcu_position, update_stepper. cbn.
      destruct (Nat.eqb s x) eqn:E; [| reflexivity].
      apply Nat.eqb_eq in E. subst s. reflexivity.
Qed.

Lemma after_wait_same_timeline cs ce trig (w : World) :
  same_timeline w (after_wait cs ce trig w).
Proof. constructor; reflexivity. Qed.

(** [verify_state] in one piece: on a timeout it raises from the world the
    wait left; otherwise it returns from a world in which exactly the
    commanded positions of the endstop's steppers were put back. *)
Lemma verify_state_outcome cs ce trig msg (w : World) :
  let o := home_wait_outcome (env (printer w)) (endstop_waits (printer w)) in
  if timed_out o
  then verify_state cs ce trig msg w =
         (Raise (EndstopError ("BLTouch failed to " ++ msg)), after_wait cs ce trig w)
  else exists w',
         verify_state cs ce trig msg w = (Ok tt, w') /\
         same_timeline w w' /\
         endstop_waits (printer w') = S (endstop_waits (printer w)) /\
         (forall s, In s (endstop_steppers (printer w)) ->
                    stepper_get_commanded_position s w' =
                    stepper_get_commanded_position s w) /\
         (forall s, stepper_get_mcu_position s w' =
                    stepper_get_mcu_position s (after_wait cs ce trig w)).
Proof.
  intro o. unfold verify_state, bind, gets, try_except, endstop_home_start,
    modify, endstop_home_wait, raise.
  cbn [fst snd printer env emit set_steppers set_endstop_waits endstop_waits
       steppers endstop_steppers].
  fold o. destruct (timed_out o) eqn:E.
  - reflexivity.
  - set (g := fun s => stepper_get_commanded_position s w).
    match goal with
    | |- context [for_each _ _ ?w1] =>
        destruct (restore_positions g (endstop_steppers (printer w)) w1)
          as (w' & Hrun & Hst & Hwaits & Hin & _ & Hmcu)
    end.
    exists w'. split; [exact Hrun |]. split; [| split; [| split]].
    + eapply same_timeline_trans; [| exact Hst]. constructor; reflexivity.
    + rewrite Hwaits. reflexivity.
    + exact Hin.
    + intro s. rewrite Hmcu. reflexivity.
Qed.

(** C1, as the code has it.  When the wait confirms the expected state,
    [verify_state] returns with the commanded position of every stepper of
    the sensing channel equal to its value at the start of the call.  When
    the wait times out, [verify_state] raises [EndstopError] with the
    caller's message straight away: it writes no commanded position, and
    the steppers are as the wait left them. *)
Theorem verify_state_restores_when_confirmed
    (check_start_time check_end_time : Q) (triggered : bool) (msg : string)
    (w : World) :
  let o := home_wait_outcome (env (printer w)) (endstop_waits (printer w)) in
  let r := verify_state check_start_time check_end_time triggered msg w in
  if timed_out o
  then fst r = Raise (EndstopError ("BLTouch failed to " ++ msg)) /\
       steppers (printer (snd r)) =
         apply_updates (steppers (printer w)) (stepper_updates o)
  else fst r = Ok tt /\
       forall s, In s (endstop_steppers (printer w)) ->
                 stepper_get_commanded_position s (snd r) =
                 stepper_get_commanded_position s w.
Proof.
  intros o r.
  pose proof (verify_state_outcome check_start_time check_end_time triggered msg w)
    as H.
  cbv zeta in H. fold o in H. destruct (timed_out o).
  - subst r. rewrite H. split; reflexivity.
  - destruct H as (w' & Hrun & _ & _ & Hin & _).
    subst r. rewrite Hrun. split; [reflexivity | exact Hin].
Qed.

(** C1, refuted as stated: a wait that moved stepper 0 and then timed out.
    [verify_state] raises and stepper 0 keeps the position the wait gave
    it, not the one it had at the start of the call. *)
Lemma verify_state_timeout_keeps_moved_position :
  let w := world_at_rest default_config env_times_out [0%nat] in
  let r := verify_state 0 1 true "raise probe" w in
  fst r = Raise (EndstopError "BLTouch failed to raise probe") /\
  In 0%nat (endstop_steppers (printer w)) /\
  stepper_get_commanded_position 0 w = 0 /\
  stepper_get_commanded_position 0 (snd r) = 7 /\
  ~ stepper_get_commanded_position 0 (snd r) == stepper_get_commanded_position 0 w.
Proof.
  cbv zeta. split; [reflexivity |]. split; [left; reflexivity |].
  split; [reflexivity |]. split; [reflexivity |].
  vm_compute. discriminate.
Qed.

(** ** Frame reasoning for monadic programs *)

Section Preserves.
Context (R : World -> World -> Prop) {R_pre : PreOrder R}.

Lemma preserves_ret {A} (a : A) : preserves R (ret a).
Proof. intro w. reflexivity. Qed.

Lemma preserves_raise {A} (e : Exn) : preserves R (@raise A e).
Proof. intro w. reflexivity. Qed.

Lemma preserves_gets {A} (f : World -> A) : preserves R (gets f).
Proof. intro w. reflexivity. Qed.

Lemma preserves_bind {A B} (m : M A) (k : A -> M B) :
  preserves R m -> (forall a, preserves R (k a)) -> preserves R (bind m k).
Proof.
  intros Hm Hk w. unfold bind. specialize (Hm w).
  destruct (m w) as [[a | e] w1]; cbn in *.
  - transitivity w1; [exact Hm | apply Hk].
  - exact Hm.
Qed.

Lemma preserves_try_except {A} (m : M A) (h : Exn -> M A) :
  preserves R m -> (forall e, preserves R (h e)) -> preserves R (try_except m h).
Proof.
  intros Hm Hh w. unfold try_except. specialize (Hm w).
  destruct (m w) as [[a | e] w1]; cbn in *.
  - exact Hm.
  - transitivity w1; [exact Hm | apply Hh].
Qed.

Lemma preserves_for_each {A} (l : list A) (body : A -> M unit) :
  (forall x, preserves R (body x)) -> preserves R (for_each l body).
Proof.
  intro Hb. induction l as [| x l IH]; cbn [for_each].
  - apply preserves_ret.
  - apply preserves_bind; [apply Hb | intros _; exact IH].
Qed.

Lemma preserves_if {A} (b : bool) (m1 m2 : M A) :
  preserves R m1 -> preserves R m2 -> preserves R (if b then m1 else m2).
Proof. destruct b; auto. Qed.
End Preserves.

#[local] Instance keeps_preorder {X} (f : World -> X) : PreOrder (keeps f).
Proof.
  split.
  - intro w. reflexivity.
  - intros w1 w2 w3 H12 H23. unfold keeps in *. congruence.
Qed.

(** Reduce field reads of explicitly updated worlds, leaving the numbers
    alone. *)
Ltac world_simpl :=
  cbn [set_next_cmd_time set_next_test_time set_start_mcu_pos set_toolhead
       set_clock_reads set_endstop_waits set_steppers emit after_read
       self printer position_endstop next_cmd_time next_test_time
       pin_up_touch_triggered pin_up_triggered start_mcu_pos pin_move_time
       env toolhead_print_time toolhead_reads clock_reads endstop_waits
       steppers endstop_steppers log fst snd].

Tactic Notation "world_simpl" "in" hyp(H) :=
  cbn [set_next_cmd_time set_next_test_time set_start_mcu_pos set_toolhead
       set_clock_reads set_endstop_waits set_steppers emit after_read
       self printer position_endstop next_cmd_time next_test_time
       pin_up_touch_triggered pin_up_triggered start_mcu_pos pin_move_time
       env toolhead_print_time toolhead_reads clock_reads endstop_waits
       steppers endstop_steppers log fst snd] in H.

(** Split a conjunction into its conjuncts, and no further. *)
Ltac split_all := repeat match goal with |- _ /\ _ => split end.

Ltac preserves_leaf :=
  let w := fresh "w" in
  intro w;
  first [ reflexivity
        | unfold endstop_home_wait; destruct (timed_out _); reflexivity ].

(** Walk down a program along its binds, handlers, loops and branches;
    [known] closes the calls that already have a lemma, [leaf] the
    primitive steps. *)
Ltac preserves_walk_gen known leaf :=
  repeat match goal with
  | |- PreOrder _ => typeclasses eauto
  | |- forall _, _ => intro; cbv beta
  | |- preserves _ _ => known
  | |- preserves _ (ret _) => apply preserves_ret
  | |- preserves _ (raise _) => apply preserves_raise
  | |- preserves _ (gets _) => apply preserves_gets
  | |- preserves _ (bind _ _) => apply preserves_bind
  | |- preserves _ (try_except _ _) => apply preserves_try_except
  | |- preserves _ (for_each _ _) => apply preserves_for_each
  | |- preserves _ (if _ then _ else _) => apply preserves_if
  | |- preserves _ (match ?e with _ => _ end) => destruct e
  | |- preserves _ _ => leaf
  end.

Ltac preserves_walk_with known := preserves_walk_gen known preserves_leaf.

Ltac preserves_walk := preserves_walk_with fail.

Lemma check_deployed_preserves (R : World -> World -> Prop) {R_pre : PreOrder R}
    (snapshot : list (nat * Z)) :
  preserves R (check_deployed snapshot).
Proof.
  induction snapshot as [| [s p] rest IH]; cbn [check_deployed].
  - preserves_walk.
  - preserves_walk_with ltac:(exact IH).
Qed.

(** *** What the retracting half of [home_finalize] leaves alone *)

Lemma sync_mcu_print_time_keeps_attempt : preserves (keeps attempt_record) sync_mcu_print_time.
Proof. unfold sync_mcu_print_time. preserves_walk. Qed.

Lemma sync_print_time_keeps_attempt : preserves (keeps attempt_record) sync_print_time.
Proof. unfold sync_print_time. preserves_walk. Qed.

Lemma send_cmd_keeps_attempt cmd d : preserves (keeps attempt_record) (send_cmd cmd d).
Proof. unfold send_cmd. preserves_walk. Qed.

Lemma verify_state_keeps_attempt cs ce trig msg :
  preserves (keeps attempt_record) (verify_state cs ce trig msg).
Proof. unfold verify_state. preserves_walk. Qed.

Ltac attempt_known :=
  idtac;
  match goal with
  | |- preserves _ sync_mcu_print_time => apply sync_mcu_print_time_keeps_attempt
  | |- preserves _ sync_print_time => apply sync_print_time_keeps_attempt
  | |- preserves _ (send_cmd _ _) => apply send_cmd_keeps_attempt
  | |- preserves _ (verify_state _ _ _ _) => apply verify_state_keeps_attempt
  end.

Lemma raise_probe_keeps_attempt : preserves (keeps attempt_record) raise_probe.
Proof.
  unfold raise_probe, send_cmd_default. preserves_walk_with attempt_known.
Qed.

Lemma home_finalize_retract_keeps_attempt :
  preserves (keeps attempt_record) home_finalize_retract.
Proof.
  unfold home_finalize_retract.
  preserves_walk_with
    ltac:(idtac;
          match goal with
          | |- preserves _ raise_probe => apply raise_probe_keeps_attempt
          | _ => attempt_known
          end).
Qed.

(** ** Homing lifecycle: the deploy check *)

Lemma check_deployed_raises (snapshot : list (nat * Z)) (w : World) :
  (exists s p, In (s, p) snapshot /\ stepper_get_mcu_position s w = p) ->
  check_deployed snapshot w = (Raise failed_to_deploy, w).
Proof.
  induction snapshot as [| [s0 p0] rest IH]; intros (s & p & Hin & Hpos).
  - destruct Hin.
  - cbn [check_deployed]. unfold bind, gets. cbn [fst snd].
    destruct (Z.eqb (stepper_get_mcu_position s0 w) p0) eqn:E; [reflexivity |].
    apply IH. destruct Hin as [Heq | Hin].
    + apply Z.eqb_neq in E. inversion Heq; subst s0 p0. contradiction.
    + exists s, p. split; assumption.
Qed.

Lemma check_deployed_passes (snapshot : list (nat * Z)) (w : World) :
  (forall s p, In (s, p) snapshot -> stepper_get_mcu_position s w <> p) ->
  check_deployed snapshot w = (Ok tt, w).
Proof.
  induction snapshot as [| [s0 p0] rest IH]; intro Hall.
  - reflexivity.
  - cbn [check_deployed]. unfold bind, gets. cbn [fst snd].
    destruct (Z.eqb (stepper_get_mcu_position s0 w) p0) eqn:E.
    + apply Z.eqb_eq in E. exfalso. apply (Hall s0 p0); [now left | exact E].
    + apply IH. intros s p Hin. apply Hall. now right.
Qed.

Lemma check_deployed_returns (snapshot : list (nat * Z)) (w w' : World) :
  check_deployed snapshot w = (Ok tt, w') ->
  w' = w /\ forall s p, In (s, p) snapshot -> stepper_get_mcu_position s w <> p.
Proof.
  induction snapshot as [| [s0 p0] rest IH]; cbn [check_deployed].
  - intro H. inversion H. split; [reflexivity | intros s p []].
  - unfold bind, gets. cbn [fst snd].
    destruct (Z.eqb (stepper_get_mcu_position s0 w) p0) eqn:E.
    + discriminate.
    + intro H. destruct (IH H) as [Hw Hall]. split; [exact Hw |].
      intros s p [Heq | Hin]; [| now apply Hall].
      inversion Heq; subst s0 p0. now apply Z.eqb_neq.
Qed.

(** [home_finalize] once its retracting half has returned. *)
Lemma home_finalize_after_retract (w w1 : World) :
  home_finalize_retract w = (Ok tt, w1) ->
  home_finalize w =
    match check_deployed (start_mcu_pos (self w)) w1 with
    | (Ok _, w2) => (Ok tt, emit EvHomeFinalize w2)
    | (Raise e, w2) => (Raise e, w2)
    end /\
  finalize_hooks w1 = finalize_hooks w.
Proof.
  intro Hret.
  pose proof (home_finalize_retract_keeps_attempt w) as Hkeep.
  rewrite Hret in Hkeep. unfold keeps, attempt_record in Hkeep. cbn [snd] in Hkeep.
  injection Hkeep as Hsnap Hhooks.
  split; [| exact Hhooks].
  unfold home_finalize, bind at 1. rewrite Hret.
  unfold bind, gets. cbn [fst snd]. rewrite Hsnap.
  destruct (check_deployed (start_mcu_pos (self w)) w1) as [[[] | e] w2]; reflexivity.
Qed.

(** When the retracting half raises, so does [home_finalize], with the
    same exception. *)
Lemma home_finalize_retract_raises (w w1 : World) (e : Exn) :
  home_finalize_retract w = (Raise e, w1) ->
  home_finalize w = (Raise e, w1).
Proof.
  intro Hret. unfold home_finalize, bind at 1. rewrite Hret. reflexivity.
Qed.

(** C2, as the code has it.  In a homing attempt whose probe raise was
    verified, whose snapshot tracks at least one stepper, and in which
    every tracked stepper's hardware counter still has its snapshot value
    when [home_finalize] checks it, [home_finalize] raises
    [EndstopError("BLTouch failed to deploy")] and the sensing channel's
    finalize hook is not reached. *)
Theorem home_finalize_nothing_moved (w w1 : World) :
  home_finalize_retract w = (Ok tt, w1) ->
  start_mcu_pos (self w) <> [] ->
  (forall s p, In (s, p) (start_mcu_pos (self w)) ->
               stepper_get_mcu_position s w1 = p) ->
  home_finalize w = (Raise failed_to_deploy, w1) /\
  finalize_hooks (snd (home_finalize w)) = finalize_hooks w.
Proof.
  intros Hret Hne Hall.
  destruct (home_finalize_after_retract w w1 Hret) as [Hfin Hhooks].
  assert (Hchk : check_deployed (start_mcu_pos (self w)) w1
                 = (Raise failed_to_deploy, w1)).
  { apply check_deployed_raises.
    destruct (start_mcu_pos (self w)) as [| [s p] rest] eqn:E; [congruence |].
    exists s, p. split; [now left |]. apply Hall. now left. }
  rewrite Hchk in Hfin. rewrite Hfin. split; [reflexivity | exact Hhooks].
Qed.

Lemma home_finalize_nothing_moved_witness :
  let w := snd (home_prepare (world_at_rest default_config env_nothing_moves [0%nat])) in
  home_finalize w = (Raise failed_to_deploy, snd (home_finalize_retract w)) /\
  finalize_hooks (snd (home_finalize w)) = finalize_hooks w.
Proof.
  intro w.
  apply (home_finalize_nothing_moved w (snd (home_finalize_retract w))).
  - vm_compute. reflexivity.
  - vm_compute. discriminate.
  - assert (Hs : start_mcu_pos (self w) = [(0%nat, 0%Z)])
      by (vm_compute; reflexivity).
    intros s p Hin. rewrite Hs in Hin.
    destruct Hin as [Heq | []]. injection Heq as <- <-. vm_compute. reflexivity.
Defined.

(** C2, refuted as stated, twice.  With one tracked stepper that never
    moved and a pin that fails to retract, [home_finalize] raises
    "BLTouch failed to raise probe", not "failed to deploy".  With no
    stepper tracked at all, every tracked counter is trivially unchanged
    and [home_finalize] returns after reaching the finalize hook. *)
Lemma home_finalize_unchanged_without_deploy_error :
  (let w := snd (home_prepare (world_at_rest default_config env_stuck_pin [0%nat])) in
   start_mcu_pos (self w) = [(0%nat, 0%Z)] /\
   stepper_get_mcu_position 0 (snd (home_finalize w)) = 0%Z /\
   fst (home_finalize w) = Raise (EndstopError "BLTouch failed to raise probe")) /\
  (let w := snd (home_prepare (world_at_rest default_config env_nothing_moves [])) in
   start_mcu_pos (self w) = [] /\
   fst (home_finalize w) = Ok tt /\
   finalize_hooks (snd (home_finalize w)) = S (finalize_hooks w)).
Proof.
  split; cbv zeta; split_all; vm_compute; reflexivity.
Qed.

(** C10, as the code has it.  Once the probe raise inside [home_finalize]
    has been verified, one tracked stepper whose hardware counter still has
    its snapshot value is enough for [home_finalize] to raise
    [EndstopError("BLTouch failed to deploy")], whatever the other tracked
    steppers did; [home_finalize] returns, having reached the finalize
    hook, exactly when every tracked counter differs from its snapshot. *)
Theorem home_finalize_any_unchanged (w w1 : World) :
  home_finalize_retract w = (Ok tt, w1) ->
  ((exists s p, In (s, p) (start_mcu_pos (self w)) /\
                stepper_get_mcu_position s w1 = p) ->
   home_finalize w = (Raise failed_to_deploy, w1)) /\
  ((forall s p, In (s, p) (start_mcu_pos (self w)) ->
                stepper_get_mcu_position s w1 <> p) ->
   home_finalize w = (Ok tt, emit EvHomeFinalize w1)) /\
  (fst (home_finalize w) = Ok tt ->
   forall s p, In (s, p) (start_mcu_pos (self w)) ->
               stepper_get_mcu_position s w1 <> p).
Proof.
  intro Hret.
  destruct (home_finalize_after_retract w w1 Hret) as [Hfin _].
  split; [| split].
  - intro Hex. rewrite Hfin, (check_deployed_raises _ _ Hex). reflexivity.
  - intro Hall. rewrite Hfin, (check_deployed_passes _ _ Hall). reflexivity.
  - intro Hok. rewrite Hfin in Hok.
    destruct (check_deployed (start_mcu_pos (self w)) w1) as [[[] | e] w2] eqn:E.
    + apply (check_deployed_returns _ _ _ E).
    + discriminate Hok.
Qed.

Lemma home_finalize_any_unchanged_witness :
  let w := snd (home_prepare
                  (world_at_rest default_config env_one_moved [0%nat; 1%nat])) in
  stepper_get_mcu_position 0 (snd (home_finalize_retract w)) = 5%Z /\
  home_finalize w = (Raise failed_to_deploy, snd (home_finalize_retract w)).
Proof.
  intro w. split; [vm_compute; reflexivity |].
  apply (home_finalize_any_unchanged w (snd (home_finalize_retract w))).
  - vm_compute. reflexivity.
  - exists 1%nat, 0%Z. split; vm_compute; [right; left |]; reflexivity.
Defined.

(** C10, refuted as stated: stepper 1 never moved, yet [home_finalize]
    does not raise "failed to deploy", because the pin failed to retract
    and "BLTouch failed to raise probe" was raised first. *)
Lemma home_finalize_unchanged_stepper_other_error :
  let w := snd (home_prepare
                  (world_at_rest default_config env_moved_then_stuck
                     [0%nat; 1%nat])) in
  In (1%nat, 0%Z) (start_mcu_pos (self w)) /\
  stepper_get_mcu_position 1 (snd (home_finalize w)) = 0%Z /\
  stepper_get_mcu_position 0 (snd (home_finalize w)) = 5%Z /\
  fst (home_finalize w) = Raise (EndstopError "BLTouch failed to raise probe") /\
  fst (home_finalize w) <> Raise failed_to_deploy.
Proof.
  cbv zeta. split_all.
  - vm_compute. right. left. reflexivity.
  - vm_compute. reflexivity.
  - vm_compute. reflexivity.
  - vm_compute. reflexivity.
  - vm_compute. discriminate.
Qed.

(** ** Monad equations and method unfolding *)

Lemma bind_bind {A B C} (m : M A) (f : A -> M B) (g : B -> M C) (w : World) :
  bind (bind m f) g w = bind m (fun a => bind (f a) g) w.
Proof. unfold bind. destruct (m w) as [[a | e] w1]; reflexivity. Qed.

Lemma bind_ok {A B} (m : M A) (k : A -> M B) (w w1 : World) (a : A) :
  m w = (Ok a, w1) -> bind m k w = k a w1.
Proof. intro H. unfold bind. rewrite H. reflexivity. Qed.

Lemma bind_raise {A B} (m : M A) (k : A -> M B) (w w1 : World) (e : Exn) :
  m w = (Raise e, w1) -> bind m k w = (Raise e, w1).
Proof. intro H. unfold bind. rewrite H. reflexivity. Qed.

Lemma try_except_bind_ok {A B} (m : M A) (k : A -> M B) (h : Exn -> M B)
    (w w1 : World) (a : A) :
  m w = (Ok a, w1) -> try_except (bind m k) h w = try_except (k a) h w1.
Proof. intro H. unfold try_except, bind. rewrite H. reflexivity. Qed.

Lemma sync_mcu_print_time_returns (w : World) :
  sync_mcu_print_time w = (Ok tt, snd (sync_mcu_print_time w)).
Proof. reflexivity. Qed.

Ltac unfold_methods :=
  unfold printer_state, home_finalize, home_finalize_retract, home_prepare,
    test_sensor, raise_probe, cmd_BLTOUCH_DEBUG, verify_state, send_cmd_default,
    send_cmd, sync_print_time, home_start, get_position_endstop,
    sensor_debug_callback, endstop_home_start, endstop_home_prepare,
    endstop_home_finalize, mcu_pwm_set_pwm.

Ltac check_deployed_known :=
  idtac;
  match goal with
  | |- preserves _ (check_deployed _) => apply check_deployed_preserves
  end.

(** The policy flags are fixed at construction. *)
Lemma exec_keeps_policy_flags (op : Op) (w : World) :
  policy_flags (exec op w) = policy_flags w.
Proof.
  destruct op; cbn [exec];
    match goal with
    | |- policy_flags (snd (?m w)) = _ =>
        enough (Hp : preserves (keeps policy_flags) m) by exact (Hp w)
    end;
    unfold_methods; cbv zeta; preserves_walk_with check_deployed_known.
Qed.

Lemma run_keeps_policy_flags (ops : list Op) :
  forall w : World, policy_flags (run ops w) = policy_flags w.
Proof.
  induction ops as [| op ops IH]; intro w; [reflexivity |].
  cbn [run fold_left]. fold (run ops (exec op w)).
  rewrite IH. apply exec_keeps_policy_flags.
Qed.

(** ** Self-test policy: nothing to test *)

(** C6.  When the configuration has [triggered_on_pin_up_touch_mode]
    false, or has [triggered_on_pin_up] true, then in every world the
    wrapper can be in, whatever operations ran since construction and
    whatever time has passed, [test_sensor] returns at once and the whole
    world is as before: no command issued, no call on the sensing channel
    or the toolhead, no field of the wrapper written. *)
Theorem test_sensor_nothing_to_test (cfg : Config) (p : Printer) (ops : list Op) :
  config_get (triggered_on_pin_up_touch_mode cfg) true = false \/
  config_get (triggered_on_pin_up cfg) false = true ->
  let w := run ops (mkWorld (init cfg) p) in
  test_sensor w = (Ok tt, w).
Proof.
  intros H w. apply test_sensor_disabled.
  pose proof (run_keeps_policy_flags ops (mkWorld (init cfg) p)) as Hk.
  fold w in Hk. unfold policy_flags in Hk. cbn [self init] in Hk.
  injection Hk as Hput Hpu. rewrite Hput, Hpu.
  cbn [pin_up_touch_triggered pin_up_triggered].
  destruct H as [H | H]; rewrite H.
  - reflexivity.
  - apply orb_true_r.
Qed.

Lemma test_sensor_nothing_to_test_witness :
  let w := run [op_printer_state "connect"; op_home_prepare; op_home_finalize]
               (mkWorld (init (mkConfig 2.5 (Some false) None None))
                        (printer_at_rest env_confirms [0%nat])) in
  test_sensor w = (Ok tt, w).
Proof.
  apply (test_sensor_nothing_to_test (mkConfig 2.5 (Some false) None None)
           (printer_at_rest env_confirms [0%nat])
           [op_printer_state "connect"; op_home_prepare; op_home_finalize]).
  left. reflexivity.
Defined.

(** ** Realtime synchronisation *)

(** What [home_finalize] and the connect handler run after their realtime
    synchronisation does not read the realtime clock again. *)
Lemma after_sync_keeps_realtime_syncs :
  preserves (keeps realtime_syncs)
    ((raise_probe ;; sync_print_time) ;;
     snapshot <- gets (fun w => start_mcu_pos (self w)) ;;
     check_deployed snapshot ;; endstop_home_finalize) /\
  preserves (keeps realtime_syncs)
    (try_except raise_probe
       (fun e => match e with
                 | EndstopError msg => raise (config_error msg)
                 | _ => raise e
                 end)).
Proof.
  split; unfold_methods; preserves_walk_with check_deployed_known.
Qed.

Lemma exec_keeps_realtime_syncs (op : Op) (w : World) :
  syncs_from_realtime op = false ->
  realtime_syncs (exec op w) = realtime_syncs w.
Proof.
  intro H. destruct op; try discriminate H; cbn [exec];
    match goal with
    | |- realtime_syncs (snd (?m w)) = _ =>
        enough (Hp : preserves (keeps realtime_syncs) m) by exact (Hp w)
    end;
    unfold_methods; cbn [syncs_from_realtime] in H; try rewrite H;
    preserves_walk_with check_deployed_known.
Qed.

(** C8, as the code has it.  [sync_mcu_print_time] reads the realtime
    clock once and sets [next_cmd_time] to the larger of its old value and
    the estimated print time plus the minimum command duration.  It is
    performed exactly once by the connect handler and exactly once by every
    [home_finalize]; no other operation of the wrapper performs it. *)
Theorem realtime_sync_sites (op : Op) (w : World) :
  (let est_time := estimated_print_time (env (printer w)) (clock_reads (printer w)) in
   exists w', sync_mcu_print_time w = (Ok tt, w') /\
     realtime_syncs w' = S (realtime_syncs w) /\
     next_cmd_time (self w') == Qmax (next_cmd_time (self w)) (est_time + MIN_CMD_TIME)) /\
  realtime_syncs (exec op w) =
    (realtime_syncs w + if syncs_from_realtime op then 1 else 0)%nat.
Proof.
  split.
  - cbv zeta. eexists. split; [reflexivity |]. split; [reflexivity |].
    cbn. apply max_is_Qmax.
  - destruct (syncs_from_realtime op) eqn:E.
    + rewrite Nat.add_1_r.
      destruct after_sync_keeps_realtime_syncs as [Hfin Hconn].
      destruct op; try discriminate E; cbn [exec].
      * cbn [syncs_from_realtime] in E. unfold printer_state. rewrite E.
        rewrite (try_except_bind_ok _ _ _ _ _ _ (sync_mcu_print_time_returns w)).
        exact (Hconn (snd (sync_mcu_print_time w))).
      * reflexivity.
      * unfold home_finalize, home_finalize_retract.
        rewrite bind_bind.
        rewrite (bind_ok _ _ _ _ _ (sync_mcu_print_time_returns w)).
        exact (Hfin (snd (sync_mcu_print_time w))).
    + rewrite Nat.add_0_r. now apply exec_keeps_realtime_syncs.
Qed.

(** C8, refuted as stated: after the connect handler has synchronised
    once, a homing attempt's [home_finalize] synchronises from the realtime
    clock again. *)
Lemma home_finalize_syncs_from_realtime_again :
  let w0 := world_at_rest default_config env_confirms [0%nat] in
  let w1 := run [op_printer_state "connect"; op_home_prepare] w0 in
  realtime_syncs w0 = 0%nat /\
  realtime_syncs w1 = 1%nat /\
  realtime_syncs (exec op_home_finalize w1) = 2%nat.
Proof.
  cbv zeta. split_all; vm_compute; reflexivity.
Qed.

(** ** Binary64 rounding *)

Lemma two_neq_0 : ~ 2 == 0.
Proof. discriminate. Qed.

Lemma pow2_pos (e : Z) : 0 < 2 ^ e.
Proof. apply Qpower_0_lt. reflexivity. Qed.

Lemma round_half_even_bounds (y : Q) :
  y - (1 # 2) <= inject_Z (Binary64.round_half_even y) <= y + (1 # 2).
Proof.
  unfold Binary64.round_half_even.
  pose proof (Qfloor_le y) as H1. pose proof (Qlt_floor y) as H2.
  rewrite inject_Z_plus in H2. change (inject_Z 1) with 1 in H2.
  destruct (Qcompare_spec (y - inject_Z (Qfloor y)) (1 # 2)) as [E | E | E].
  - destruct (Z.even (Qfloor y)); [| rewrite inject_Z_plus; change (inject_Z 1) with 1]; lra.
  - lra.
  - rewrite inject_Z_plus. change (inject_Z 1) with 1. lra.
Qed.

Lemma round_half_even_ge_whole (y : Q) (j : Z) :
  inject_Z j <= y -> (j <= Binary64.round_half_even y)%Z.
Proof.
  intro H. assert (Hj : (j <= Qfloor y)%Z).
  { rewrite <- (Qfloor_Z j). now apply Qfloor_resp_le. }
  unfold Binary64.round_half_even.
  destruct (Qcompare _ _); [destruct (Z.even _) | |]; lia.
Qed.

(** The scaled significand of a positive number has 53 bits. *)
Lemma exponent_spec (x : Q) :
  0 < x ->
  2 ^ 52 <= x / 2 ^ Binary64.exponent x /\ x / 2 ^ Binary64.exponent x < 2 ^ 53.
Proof.
  intro Hx. destruct x as [n d]. 
  assert (Hn : (0 < n)%Z) by (unfold Qlt in Hx; simpl in Hx; lia).
  unfold Binary64.exponent. cbn [Qnum Qden].
  set (a := Z.log2 n). set (b := Z.log2 (Z.pos d)).
  destruct (Z.log2_spec n Hn) as [Ha1 Ha2]. fold a in Ha1, Ha2.
  destruct (Z.log2_spec (Z.pos d) eq_refl) as [Hb1 Hb2]. fold b in Hb1, Hb2.
  assert (Ha0 : (0 <= a)%Z) by apply Z.log2_nonneg.
  assert (Hb0 : (0 <= b)%Z) by apply Z.log2_nonneg.
  assert (Hnd : n # d == inject_Z n / inject_Z (Z.pos d)) by apply Qmake_Qdiv.
  assert (Hd : 0 < inject_Z (Z.pos d)) by reflexivity.
  (* bounds on numerator and denominator in Q *)
  assert (Qa1 : 2 ^ a <= inject_Z n).
  { change 2 with (inject_Z 2). rewrite <- Zpower_Qpower by assumption. now rewrite <- Zle_Qle. }
  assert (Qa2 : inject_Z n < 2 ^ (a + 1)).
  { change 2 with (inject_Z 2). rewrite <- Zpower_Qpower by lia.
    rewrite <- Zlt_Qlt. replace (a + 1)%Z with (Z.succ a) by lia. assumption. }
  assert (Qb1 : 2 ^ b <= inject_Z (Z.pos d)).
  { change 2 with (inject_Z 2). rewrite <- Zpower_Qpower by assumption. now rewrite <- Zle_Qle. }
  assert (Qb2 : inject_Z (Z.pos d) < 2 ^ (b + 1)).
  { change 2 with (inject_Z 2). rewrite <- Zpower_Qpower by lia.
    rewrite <- Zlt_Qlt. replace (b + 1)%Z with (Z.succ b) by lia. assumption. }
  set (N := inject_Z n) in *. set (D := inject_Z (Z.pos d)) in *.
  set (x := n # d) in *.
  assert (Hxd : x * D == N). { rewrite Hnd. field. intro E. rewrite E in Hd. discriminate. }
  pose proof (pow2_pos a) as Pa. pose proof (pow2_pos b) as Pb.
  (* 2^(k-1) < x < 2^(k+1), k = a - b *)
  assert (Hlo : 2 ^ (a - b - 1) < x).
  { replace (a - b - 1)%Z with (a - (b + 1))%Z by lia.
    rewrite (Qpower_minus 2 a (b + 1) two_neq_0).
    pose proof (pow2_pos (b + 1)) as Pb1.
    apply Qlt_shift_div_r; [assumption |].
    apply Qle_lt_trans with (x * D); [rewrite Hxd; assumption |].
    apply Qmult_lt_l; assumption. }
  assert (Hhi : x < 2 ^ (a - b + 1)).
  { replace (a - b + 1)%Z with (a + 1 - b)%Z by lia.
    rewrite (Qpower_minus 2 (a + 1) b two_neq_0).
    apply Qlt_shift_div_l; [assumption |].
    apply Qle_lt_trans with (x * D); [| rewrite Hxd; assumption].
    apply Qmult_le_l; assumption. }
  set (k := (a - b)%Z) in *.
  destruct (Qle_bool (2 ^ k) x) eqn:E.
  - apply Qle_bool_iff in E.
    pose proof (pow2_pos (k - 52)) as Pe.
    split.
    + apply Qle_shift_div_l; [assumption |].
      rewrite <- (Qpower_plus 2 52 (k - 52) two_neq_0).
      replace (52 + (k - 52))%Z with k by lia. assumption.
    + apply Qlt_shift_div_r; [assumption |].
      rewrite <- (Qpower_plus 2 53 (k - 52) two_neq_0).
      replace (53 + (k - 52))%Z with (k + 1)%Z by lia. assumption.
  - assert (E' : x < 2 ^ k).
    { apply Qnot_le_lt. intro H. apply Qle_bool_iff in H. congruence. }
    pose proof (pow2_pos (k - 53)) as Pe.
    split.
    + apply Qle_shift_div_l; [assumption |].
      rewrite <- (Qpower_plus 2 52 (k - 53) two_neq_0).
      replace (52 + (k - 53))%Z with (k - 1)%Z by lia. now apply Qlt_le_weak.
    + apply Qlt_shift_div_r; [assumption |].
      rewrite <- (Qpower_plus 2 53 (k - 53) two_neq_0).
      replace (53 + (k - 53))%Z with k by lia. assumption.
Qed.

Lemma Qeq_le (x y : Q) : x == y -> x <= y.
Proof. intro H. rewrite H. apply Qle_refl. Qed.

Lemma round_nonneg_cases (x : Q) :
  0 <= x ->
  (x == 0 /\ Binary64.round x = 0) \/
  (0 < x /\ Binary64.round x = Binary64.round_pos x).
Proof.
  intro H. destruct x as [n d]. unfold Binary64.round. cbn [Qnum].
  destruct n as [| p | p].
  - left. split; reflexivity.
  - right. split; reflexivity.
  - exfalso. unfold Qle in H. simpl in H. lia.
Qed.

(** Rounding changes a number by at most the unit roundoff, relatively. *)
Lemma round_relative (x : Q) :
  0 <= x ->
  x * (1 - / 2 ^ 53) <= Binary64.round x <= x * (1 + / 2 ^ 53).
Proof.
  intro H. destruct (round_nonneg_cases x H) as [[E R] | [Hx R]]; rewrite R.
  - rewrite E. split; apply Qeq_le; ring_simplify; reflexivity.
  - unfold Binary64.round_pos.
    destruct (exponent_spec x Hx) as [Hlo _].
    pose proof (pow2_pos (Binary64.exponent x)) as Pe.
    set (p := 2 ^ Binary64.exponent x) in *.
    set (y := x / p) in *.
    pose proof (round_half_even_bounds y) as [B1 B2].
    set (m := inject_Z (Binary64.round_half_even y)) in *.
    assert (Hxy : x == y * p).
    { unfold y. field. intro E. rewrite E in Pe. discriminate. }
    assert (Hu : (1 # 2) <= y * / 2 ^ 53).
    { apply Qle_trans with (2 ^ 52 * / 2 ^ 53); [apply Qeq_le; reflexivity |].
      apply Qmult_le_compat_r; [assumption | discriminate]. }
    split.
    + apply Qle_trans with ((y - y * / 2 ^ 53) * p).
      * apply Qeq_le. rewrite Hxy. ring.
      * apply Qmult_le_compat_r; [lra | now apply Qlt_le_weak].
    + apply Qle_trans with ((y + y * / 2 ^ 53) * p).
      * apply Qmult_le_compat_r; [lra | now apply Qlt_le_weak].
      * apply Qeq_le. rewrite Hxy. ring.
Qed.

(** Below [2^53] rounding never goes under the last whole number. *)
Lemma round_floor (x : Q) :
  0 <= x -> x < 2 ^ 53 -> inject_Z (Qfloor x) <= Binary64.round x.
Proof.
  intros H Hb. destruct (round_nonneg_cases x H) as [[E R] | [Hx R]]; rewrite R.
  - rewrite E. discriminate.
  - unfold Binary64.round_pos.
    destruct (exponent_spec x Hx) as [Hlo _].
    set (e := Binary64.exponent x) in *.
    pose proof (pow2_pos e) as Pe.
    assert (He : (e <= 0)%Z).
    { destruct (Z_le_gt_dec e 0) as [L | G]; [assumption | exfalso].
      assert (H2 : 2 ^ 52 * 2 ^ e <= x).
      { apply Qle_trans with (x / 2 ^ e * 2 ^ e).
        - apply Qmult_le_compat_r; [assumption | now apply Qlt_le_weak].
        - apply Qeq_le. field. intro E. rewrite E in Pe. discriminate. }
      assert (H5 : 2 <= 2 ^ e).
      { rewrite <- (Qpower_1_r 2) at 1. apply Qpower_le_compat_l; [lia | discriminate]. }
      assert (H6 : 2 ^ 52 * 2 <= 2 ^ 52 * 2 ^ e).
      { apply Qmult_le_l; [reflexivity | assumption]. }
      assert (H7 : 2 ^ 53 == 2 ^ 52 * 2) by reflexivity.
      lra. }
    set (j := (Qfloor x * 2 ^ (- e))%Z).
    assert (Hj : inject_Z j == inject_Z (Qfloor x) / 2 ^ e).
    { unfold j. rewrite inject_Z_mult, Zpower_Qpower by lia.
      change (inject_Z 2) with 2. rewrite Qpower_opp. field.
      intro E. rewrite E in Pe. discriminate. }
    assert (Hjy : inject_Z j <= x / 2 ^ e).
    { rewrite Hj. apply Qmult_le_compat_r; [apply Qfloor_le |].
      apply Qlt_le_weak, Qinv_lt_0_compat, Pe. }
    pose proof (round_half_even_ge_whole _ _ Hjy) as Hm.
    apply Qle_trans with (inject_Z j * 2 ^ e).
    + apply Qeq_le. rewrite Hj. field. intro E. rewrite E in Pe. discriminate.
    + apply Qmult_le_compat_r; [now rewrite <- Zle_Qle | now apply Qlt_le_weak].
Qed.

Lemma round_half_even_le_whole (y : Q) (j : Z) :
  y <= inject_Z j -> (Binary64.round_half_even y <= j)%Z.
Proof.
  intro H. unfold Binary64.round_half_even.
  pose proof (Qfloor_le y) as H1. pose proof (Qlt_floor y) as H2.
  assert (Hf : (Qfloor y <= j)%Z).
  { rewrite Zle_Qle. lra. }
  destruct (Z.eq_dec (Qfloor y) j) as [E | N].
  - assert (Hy : y == inject_Z j) by (rewrite E in H1; lra).
    destruct (Qcompare_spec (y - inject_Z (Qfloor y)) (1 # 2)) as [C | C | C];
      rewrite E in C; [exfalso; lra | lia | exfalso; lra].
  - destruct (Qcompare _ _); [destruct (Z.even _) | |]; lia.
Qed.

Lemma round_half_even_monotone (x y : Q) :
  x <= y -> (Binary64.round_half_even x <= Binary64.round_half_even y)%Z.
Proof.
  intro H. pose proof (Qfloor_resp_le _ _ H) as Hf.
  destruct (Z.eq_dec (Qfloor x) (Qfloor y)) as [E | N].
  - unfold Binary64.round_half_even. rewrite E.
    destruct (Qcompare_spec (x - inject_Z (Qfloor y)) (1 # 2)) as [C | C | C];
      destruct (Qcompare_spec (y - inject_Z (Qfloor y)) (1 # 2)) as [C' | C' | C'];
      try destruct (Z.even (Qfloor y)); try lia; exfalso; lra.
  - apply Z.le_trans with (Qfloor y).
    + apply round_half_even_le_whole. pose proof (Qlt_floor x) as H2.
      assert (Hs : (Qfloor x + 1 <= Qfloor y)%Z) by lia.
      rewrite Zle_Qle in Hs. lra.
    + apply round_half_even_ge_whole, Qfloor_le.
Qed.

(** The exponent grows with the number. *)
Lemma exponent_monotone (x y : Q) :
  0 < x -> x <= y -> (Binary64.exponent x <= Binary64.exponent y)%Z.
Proof.
  intros Hx Hxy. assert (Hy : 0 < y) by lra.
  destruct (exponent_spec x Hx) as [Lx Ux]. destruct (exponent_spec y Hy) as [Ly Uy].
  set (ex := Binary64.exponent x) in *. set (ey := Binary64.exponent y) in *.
  destruct (Z_le_gt_dec ex ey) as [L | G]; [assumption | exfalso].
  pose proof (pow2_pos ex) as Px. pose proof (pow2_pos ey) as Pey.
  assert (H1 : 2 ^ 52 * 2 ^ ex <= x).
  { apply Qle_trans with (x / 2 ^ ex * 2 ^ ex).
    - apply Qmult_le_compat_r; [assumption | now apply Qlt_le_weak].
    - apply Qeq_le. field. intro E. rewrite E in Px. discriminate. }
  assert (H2 : y < 2 ^ 53 * 2 ^ ey).
  { apply Qle_lt_trans with (y / 2 ^ ey * 2 ^ ey).
    - apply Qeq_le. field. intro E. rewrite E in Pey. discriminate.
    - apply Qmult_lt_compat_r; assumption. }
  assert (H3 : 2 ^ (ey + 1) <= 2 ^ ex).
  { apply Qpower_le_compat_l; [lia | discriminate]. }
  rewrite (Qpower_plus 2 ey 1 two_neq_0) in H3.
  assert (H4 : 2 ^ 53 * 2 ^ ey == 2 ^ 52 * (2 ^ ey * 2 ^ 1)).
  { change (2 ^ 53) with (2 ^ 52 * 2). change (2 ^ 1) with 2. ring. }
  assert (H5 : 2 ^ 52 * (2 ^ ey * 2 ^ 1) <= 2 ^ 52 * 2 ^ ex).
  { apply Qmult_le_l; [reflexivity | assumption]. }
  lra.
Qed.

Lemma round_pos_monotone (x y : Q) :
  0 < x -> x <= y -> Binary64.round_pos x <= Binary64.round_pos y.
Proof.
  intros Hx Hxy. assert (Hy : 0 < y) by lra.
  pose proof (exponent_monotone x y Hx Hxy) as He.
  destruct (exponent_spec x Hx) as [Lx Ux]. destruct (exponent_spec y Hy) as [Ly Uy].
  unfold Binary64.round_pos.
  set (ex := Binary64.exponent x) in *. set (ey := Binary64.exponent y) in *.
  pose proof (pow2_pos ex) as Px. pose proof (pow2_pos ey) as Pey.
  destruct (Z.eq_dec ex ey) as [E | N].
  - rewrite E in *. apply Qmult_le_compat_r; [| now apply Qlt_le_weak].
    rewrite <- Zle_Qle. apply round_half_even_monotone.
    apply Qmult_le_compat_r; [assumption |].
    apply Qlt_le_weak, Qinv_lt_0_compat, Pey.
  - assert (H1 : (Binary64.round_half_even (x / 2 ^ ex) <= 2 ^ 53)%Z).
    { apply round_half_even_le_whole. apply Qlt_le_weak.
      rewrite Zpower_Qpower by lia. exact Ux. }
    assert (H2 : (2 ^ 52 <= Binary64.round_half_even (y / 2 ^ ey))%Z).
    { apply round_half_even_ge_whole. rewrite Zpower_Qpower by lia. exact Ly. }
    rewrite Zle_Qle in H1, H2.
    rewrite Zpower_Qpower in H1, H2 by lia. change (inject_Z 2) with 2 in H1, H2.
    set (mx := inject_Z (Binary64.round_half_even (x / 2 ^ ex))) in *.
    set (my := inject_Z (Binary64.round_half_even (y / 2 ^ ey))) in *.
    assert (H3 : 2 ^ (ex + 1) <= 2 ^ ey).
    { apply Qpower_le_compat_l; [lia | discriminate]. }
    rewrite (Qpower_plus 2 ex 1 two_neq_0) in H3. change (2 ^ 1) with 2 in H3.
    apply Qle_trans with (2 ^ 53 * 2 ^ ex).
    { apply Qmult_le_compat_r; [assumption | now apply Qlt_le_weak]. }
    apply Qle_trans with (2 ^ 52 * 2 ^ ey).
    { apply Qle_trans with (2 ^ 52 * (2 ^ ex * 2)).
      - apply Qeq_le. change (2 ^ 53) with (2 ^ 52 * 2). ring.
      - apply Qmult_le_l; [reflexivity | assumption]. }
    apply Qmult_le_compat_r; [assumption | now apply Qlt_le_weak].
Qed.

Lemma round_pos_nonneg (x : Q) : 0 < x -> 0 <= Binary64.round_pos x.
Proof.
  intro Hx. destruct (exponent_spec x Hx) as [Lx _]. unfold Binary64.round_pos.
  apply Qmult_le_0_compat; [| apply Qlt_le_weak, pow2_pos].
  change 0 with (inject_Z 0). rewrite <- Zle_Qle.
  apply round_half_even_ge_whole. apply Qle_trans with (2 ^ 52); [discriminate | assumption].
Qed.

(** Rounding keeps the order of non-negative numbers. *)
Lemma round_monotone (x y : Q) :
  0 <= x -> x <= y -> Binary64.round x <= Binary64.round y.
Proof.
  intros Hx Hxy. assert (Hy : 0 <= y) by lra.
  destruct (round_nonneg_cases x Hx) as [[E R] | [Px R]]; rewrite R;
    destruct (round_nonneg_cases y Hy) as [[E' R'] | [Py' R']]; rewrite R'.
  - apply Qle_refl.
  - now apply round_pos_nonneg.
  - lra.
  - now apply round_pos_monotone.
Qed.

(** ** Actuation channel: the tick round trip *)

Lemma send_cmd_eq (cmd : Command) (duration : Q) (w : World) :
  let nct := next_cmd_time (self w) in
  let t := issue_time (env (printer w)) nct duration in
  send_cmd cmd duration w =
    (Ok t, set_next_cmd_time t (emit (EvSetPwm nct (Commands cmd / SIGNAL_PERIOD)) w)).
Proof. reflexivity. Qed.

Lemma tick_pos (e : Env) : 0 < mcu_freq e -> 0 < tick e.
Proof. intro H. unfold tick. now apply Qinv_lt_0_compat. Qed.

Lemma tick_freq (e : Env) : 0 < mcu_freq e -> tick e * mcu_freq e == 1.
Proof.
  intro H. unfold tick. rewrite Qmult_comm. apply Qmult_inv_r.
  intro H0. rewrite H0 in H. discriminate H.
Qed.

Lemma clock_to_print_time_tick (e : Env) (c : Z) :
  clock_to_print_time e c == inject_Z c * tick e.
Proof. reflexivity. Qed.

Lemma issue_time_lower (e : Env) (nct d : Q) :
  0 < mcu_freq e ->
  nct + Py.max d MIN_CMD_TIME - 2 * tick e < issue_time e nct d.
Proof.
  intro Hf. unfold issue_time. rewrite clock_to_print_time_tick, inject_Z_plus.
  unfold print_time_to_clock, seconds_to_clock.
  pose proof (int_gt_pred (nct * mcu_freq e)) as Ha.
  pose proof (int_gt_pred (Py.max d MIN_CMD_TIME * mcu_freq e)) as Hb.
  pose proof (tick_pos e Hf) as Ht. pose proof (tick_freq e Hf) as Htf.
  set (A := inject_Z (Py.int (nct * mcu_freq e))) in *.
  set (B := inject_Z (Py.int (Py.max d MIN_CMD_TIME * mcu_freq e))) in *.
  set (D := Py.max d MIN_CMD_TIME) in *.
  assert (H1 : (nct * mcu_freq e - 1) * tick e < A * tick e)
    by (apply Qmult_lt_compat_r; assumption).
  assert (H2 : (D * mcu_freq e - 1) * tick e < B * tick e)
    by (apply Qmult_lt_compat_r; assumption).
  assert (E1 : (nct * mcu_freq e - 1) * tick e == nct - tick e).
  { transitivity (nct * (tick e * mcu_freq e) - tick e); [ring |].
    rewrite Htf. ring. }
  assert (E2 : (D * mcu_freq e - 1) * tick e == D - tick e).
  { transitivity (D * (tick e * mcu_freq e) - tick e); [ring |].
    rewrite Htf. ring. }
  rewrite E1 in H1. rewrite E2 in H2.
  assert (E3 : (A + B) * tick e == A * tick e + B * tick e) by ring.
  rewrite E3. lra.
Qed.

(** A command lasts at least the minimum command duration, in ticks. *)
Lemma seconds_to_clock_min (e : Env) (d : Q) :
  0 < mcu_freq e ->
  (seconds_to_clock e MIN_CMD_TIME <= seconds_to_clock e (Py.max d MIN_CMD_TIME))%Z.
Proof.
  intro Hf. unfold seconds_to_clock. apply int_monotone.
  apply Qmult_le_compat_r; [apply max_lub_r | now apply Qlt_le_weak].
Qed.

Lemma seconds_to_clock_min_pos (e : Env) :
  clock_ok e -> (1 <= seconds_to_clock e MIN_CMD_TIME)%Z.
Proof.
  intros [Hf Hmin]. unfold seconds_to_clock.
  rewrite <- (int_of_whole 1 1) at 1 by reflexivity.
  now apply int_monotone.
Qed.

(** With a clock that resolves the minimum command duration, issuing a
    command moves the cursor strictly forward. *)
Lemma issue_time_advances (e : Env) (nct d : Q) :
  clock_ok e -> nct < issue_time e nct d.
Proof.
  intro Hok. pose proof Hok as [Hf _].
  unfold issue_time. rewrite clock_to_print_time_tick, inject_Z_plus.
  pose proof (seconds_to_clock_min_pos e Hok) as H1.
  pose proof (seconds_to_clock_min e d Hf) as H2.
  assert (HB : 1 <= inject_Z (seconds_to_clock e (Py.max d MIN_CMD_TIME))).
  { change 1 with (inject_Z 1). rewrite <- Zle_Qle. lia. }
  unfold print_time_to_clock.
  pose proof (int_gt_pred (nct * mcu_freq e)) as Ha.
  pose proof (tick_pos e Hf) as Ht. pose proof (tick_freq e Hf) as Htf.
  set (A := inject_Z (Py.int (nct * mcu_freq e))) in *.
  set (B := inject_Z (seconds_to_clock e (Py.max d MIN_CMD_TIME))) in *.
  assert (H3 : (nct * mcu_freq e) * tick e < (A + B) * tick e).
  { apply Qmult_lt_compat_r; [assumption | lra]. }
  assert (E1 : (nct * mcu_freq e) * tick e == nct).
  { transitivity (nct * (tick e * mcu_freq e)); [ring |]. rewrite Htf. ring. }
  rewrite E1 in H3. exact H3.
Qed.

(** *** The round trip in binary64 *)

Lemma min_cmd_time_b64_pos : 0 < MIN_CMD_TIME_b64.
Proof. vm_compute. reflexivity. Qed.

Lemma send_cmd_b64_eq (cmd : Command) (duration : Q) (w : World) :
  let nct := next_cmd_time (self w) in
  let t := issue_time_b64 (env (printer w)) nct duration in
  send_cmd_b64 cmd duration w =
    (Ok t,
     set_next_cmd_time t
       (emit (EvSetPwm nct
                (Binary64.round
                   (Binary64.round (Commands cmd) / Binary64.round SIGNAL_PERIOD))) w)).
Proof. reflexivity. Qed.

Lemma round_nonneg (y : Q) : 0 <= y -> 0 <= Binary64.round y.
Proof.
  intro H. destruct (round_relative y H) as [L _].
  apply Qle_trans with (y * (1 - / 2 ^ 53)); [| assumption].
  apply Qmult_le_0_compat; [assumption | discriminate].
Qed.

(** Truncating a rounded product still loses less than one tick. *)
Lemma int_round_gt_pred (y : Q) :
  0 <= y -> y < 2 ^ 53 -> y - 1 < inject_Z (Py.int (Binary64.round y)).
Proof.
  intros H Hb. pose proof (round_floor y H Hb) as Hr.
  apply int_monotone in Hr. rewrite (int_of_whole (Qfloor y)) in Hr by reflexivity.
  rewrite Zle_Qle in Hr. pose proof (Qlt_floor y) as Hf.
  rewrite inject_Z_plus in Hf. change (inject_Z 1) with 1 in Hf. lra.
Qed.

Lemma int_round_le (y : Q) :
  0 <= y -> inject_Z (Py.int (Binary64.round y)) <= y * (1 + / 2 ^ 53).
Proof.
  intro H. destruct (round_relative y H) as [_ U].
  apply Qle_trans with (Binary64.round y); [| assumption].
  apply int_le_nonneg. now apply round_nonneg.
Qed.

Lemma int_round_nonneg (y : Q) : 0 <= y -> (0 <= Py.int (Binary64.round y))%Z.
Proof.
  intro H. rewrite <- (int_of_whole 0 0) at 1 by reflexivity.
  apply int_monotone. now apply round_nonneg.
Qed.

(** In binary64 the two truncations lose less than one tick each and the
    rounded division back less than one more, as long as the timeline
    stays below [2^52] ticks. *)
Lemma issue_time_b64_lower (e : Env) (nct d : Q) :
  0 < mcu_freq e ->
  0 <= nct ->
  (nct + Py.max d MIN_CMD_TIME_b64) * mcu_freq e <= 2 ^ 52 ->
  nct + Py.max d MIN_CMD_TIME_b64 - 3 * tick e < issue_time_b64 e nct d.
Proof.
  intros Hf Hn Hr.
  pose proof (tick_pos e Hf) as Ht. pose proof (tick_freq e Hf) as Htf.
  pose proof min_cmd_time_b64_pos as Hm.
  pose proof (max_lub_r d MIN_CMD_TIME_b64) as HD.
  unfold issue_time_b64, clock_to_print_time_b64,
    print_time_to_clock_b64, seconds_to_clock_b64.
  set (D := Py.max d MIN_CMD_TIME_b64) in *.
  set (x1 := nct * mcu_freq e). set (x2 := D * mcu_freq e).
  assert (H1 : 0 <= x1) by (apply Qmult_le_0_compat; lra).
  assert (H2 : 0 <= x2) by (apply Qmult_le_0_compat; lra).
  assert (H12 : x1 + x2 <= 2 ^ 52).
  { apply Qle_trans with ((nct + D) * mcu_freq e); [| assumption].
    apply Qeq_le. unfold x1, x2. ring. }
  assert (P53 : 2 ^ 53 == 2 * 2 ^ 52) by reflexivity.
  assert (P52 : 0 < 2 ^ 52) by reflexivity.
  pose proof (int_round_gt_pred x1 H1 ltac:(lra)) as La.
  pose proof (int_round_gt_pred x2 H2 ltac:(lra)) as Lb.
  pose proof (int_round_le x1 H1) as Ua.
  pose proof (int_round_le x2 H2) as Ub.
  pose proof (int_round_nonneg x1 H1) as Na.
  pose proof (int_round_nonneg x2 H2) as Nb.
  rewrite Zle_Qle in Na, Nb. change (inject_Z 0) with 0 in Na, Nb.
  rewrite inject_Z_plus.
  set (A := inject_Z (Py.int (Binary64.round x1))) in *.
  set (B := inject_Z (Py.int (Binary64.round x2))) in *.
  assert (HT : 0 <= (A + B) / mcu_freq e).
  { apply Qmult_le_0_compat; [lra |]. apply Qlt_le_weak, Qinv_lt_0_compat, Hf. }
  destruct (round_relative _ HT) as [LT _].
  assert (ET : (A + B) / mcu_freq e == (A + B) * tick e) by reflexivity.
  (* the relative error of the division is below one tick *)
  assert (Hu : (A + B) * / 2 ^ 53 <= (2 ^ 52 * (1 + / 2 ^ 53)) * / 2 ^ 53).
  { apply Qmult_le_compat_r; [| discriminate].
    apply Qle_trans with ((x1 + x2) * (1 + / 2 ^ 53)).
    - apply Qle_trans with (x1 * (1 + / 2 ^ 53) + x2 * (1 + / 2 ^ 53)); [lra |].
      apply Qeq_le. ring.
    - apply Qmult_le_compat_r; [assumption | discriminate]. }
  assert (Hc : (2 ^ 52 * (1 + / 2 ^ 53)) * / 2 ^ 53 < 1) by reflexivity.
  assert (Hut : (A + B) * / 2 ^ 53 * tick e < 1 * tick e).
  { apply Qmult_lt_compat_r; [assumption | lra]. }
  assert (E0 : (A + B) / mcu_freq e * (1 - / 2 ^ 53)
               == (A + B) * tick e - (A + B) * / 2 ^ 53 * tick e).
  { rewrite ET. ring. }
  rewrite E0 in LT.
  (* the truncations lose less than two ticks *)
  assert (H3 : (x1 + x2 - 2) * tick e < (A + B) * tick e).
  { apply Qmult_lt_compat_r; [assumption | lra]. }
  assert (E1 : (x1 + x2 - 2) * tick e == nct + D - 2 * tick e).
  { unfold x1, x2.
    transitivity (nct * (tick e * mcu_freq e) + D * (tick e * mcu_freq e)
                  - 2 * tick e); [ring |].
    rewrite Htf. ring. }
  rewrite E1 in H3. lra.
Qed.

(** A command lasts at least the minimum command duration in binary64 as
    well, in ticks. *)
Lemma seconds_to_clock_b64_min (e : Env) (d : Q) :
  0 < mcu_freq e ->
  (seconds_to_clock_b64 e MIN_CMD_TIME_b64
   <= seconds_to_clock_b64 e (Py.max d MIN_CMD_TIME_b64))%Z.
Proof.
  intro Hf. pose proof min_cmd_time_b64_pos as Hm.
  unfold seconds_to_clock_b64. apply int_monotone, round_monotone.
  - apply Qmult_le_0_compat; lra.
  - apply Qmult_le_compat_r; [apply max_lub_r | now apply Qlt_le_weak].
Qed.

(** C4, as the code has it.  [send_cmd(cmd, d)] returns the new
    [next_cmd_time], which is the timeline value of the tick count
    [print_time_to_clock(old) + seconds_to_clock(max(d, MIN_CMD_TIME))];
    the duration in ticks is never less than the minimum command duration
    in ticks.  The new cursor is less than three ticks short of
    [old + max(d, MIN_CMD_TIME)]: each of the two conversions to ticks
    drops less than one tick, and the third tick covers the rounding of
    the conversion back to the timeline.  All of this is stated twice, for
    [send_cmd] with exact arithmetic and for [send_cmd_b64] with every
    float operation rounded to binary64; there the bound is for a cursor
    that is not negative and a timeline below [2^52] ticks.  A cursor that
    [send_cmd] left is not an exception: in binary64 its conversion to
    ticks can come out one lower than the count it was made from. *)
Theorem send_cmd_tick_round_trip (cmd : Command) (d : Q) (w : World) :
  let e := env (printer w) in
  let old := next_cmd_time (self w) in
  let r := send_cmd cmd d w in
  let new := next_cmd_time (self (snd r)) in
  let r64 := send_cmd_b64 cmd d w in
  let new64 := next_cmd_time (self (snd r64)) in
  0 < mcu_freq e ->
  (fst r = Ok new /\
   new = clock_to_print_time e
           (print_time_to_clock e old
            + seconds_to_clock e (Py.max d MIN_CMD_TIME))%Z /\
   (seconds_to_clock e MIN_CMD_TIME
    <= seconds_to_clock e (Py.max d MIN_CMD_TIME))%Z /\
   old + Qmax d MIN_CMD_TIME - 3 * tick e < new) /\
  (fst r64 = Ok new64 /\
   new64 = clock_to_print_time_b64 e
             (print_time_to_clock_b64 e old
              + seconds_to_clock_b64 e (Py.max d MIN_CMD_TIME_b64))%Z /\
   (seconds_to_clock_b64 e MIN_CMD_TIME_b64
    <= seconds_to_clock_b64 e (Py.max d MIN_CMD_TIME_b64))%Z /\
   (0 <= old ->
    (old + Qmax d MIN_CMD_TIME_b64) * mcu_freq e <= 2 ^ 52 ->
    old + Qmax d MIN_CMD_TIME_b64 - 3 * tick e < new64)).
Proof.
  intros e old r new r64 new64 Hf.
  assert (Hnew : new = issue_time e old d) by reflexivity.
  assert (Hnew64 : new64 = issue_time_b64 e old d) by reflexivity.
  split; (split; [reflexivity |]).
  - split; [exact Hnew |]. split; [now apply seconds_to_clock_min |].
    rewrite <- max_is_Qmax, Hnew.
    pose proof (issue_time_lower e old d Hf) as H.
    pose proof (tick_pos e Hf) as Ht. lra.
  - split; [exact Hnew64 |]. split; [now apply seconds_to_clock_b64_min |].
    intros Ho Hr. rewrite <- max_is_Qmax in Hr |- *. rewrite Hnew64.
    now apply issue_time_b64_lower.
Qed.

(** At 16 MHz, with the cursor on tick 257228800 as binary64 holds it. *)
Lemma send_cmd_tick_round_trip_witness :
  let w := set_next_cmd_time (clock_to_print_time_b64 env_confirms 257228800)
             (world_at_rest default_config env_confirms [0%nat]) in
  let old := next_cmd_time (self w) in
  let r := send_cmd pin_down 0.2048 w in
  let r64 := send_cmd_b64 pin_down 0.2048 w in
  (fst r = Ok (next_cmd_time (self (snd r))) /\
   old + Qmax 0.2048 MIN_CMD_TIME - 3 * tick env_confirms
     < next_cmd_time (self (snd r))) /\
  (fst r64 = Ok (next_cmd_time (self (snd r64))) /\
   old + Qmax 0.2048 MIN_CMD_TIME_b64 - 3 * tick env_confirms
     < next_cmd_time (self (snd r64))).
Proof.
  intros w old r r64.
  destruct (send_cmd_tick_round_trip pin_down 0.2048 w)
    as [(H1 & _ & _ & H4) (H5 & _ & _ & H8)].
  - reflexivity.
  - split; [split; [exact H1 | exact H4] | split; [exact H5 |]].
    apply H8.
    + vm_compute. discriminate.
    + vm_compute. discriminate.
Defined.

(** C4, refuted as stated.  On a 16 MHz clock, with the cursor brought to
    0.9 tick by [sync_print_time] and a requested duration of 0.1024 s plus
    0.9 tick, [send_cmd] returns 0.1024 s: more than one tick short of the
    old cursor plus the duration. *)
Lemma send_cmd_short_by_more_than_a_tick :
  let w := snd (sync_print_time (world_at_rest default_config env_off_grid [0%nat])) in
  let d := 0.1024 + (9 # 160000000) in
  let old := next_cmd_time (self w) in
  let r := send_cmd pin_down d w in
  old == 9 # 160000000 /\
  fst r = Ok (next_cmd_time (self (snd r))) /\
  next_cmd_time (self (snd r)) == 0.1024 /\
  next_cmd_time (self (snd r)) + tick (env (printer w)) < old + Qmax d MIN_CMD_TIME.
Proof.
  cbv zeta. split_all; vm_compute; reflexivity.
Qed.

(** In binary64 a tick count does not survive the conversion to the
    timeline and back: tick 257228800 of a 16 MHz clock comes back as
    tick 257228799. *)
Example clock_round_trip_b64_loses_a_tick :
  print_time_to_clock_b64 env_confirms
    (clock_to_print_time_b64 env_confirms 257228800) = 257228799%Z.
Proof. vm_compute. reflexivity. Qed.

(** In binary64 the cursor can come out more than two ticks short: at
    16 MHz, from the binary64 cursor nearest to 67784.9434754375 s and
    with the binary64 duration nearest to 3.5355037499999993 s, the new
    cursor is the timeline value of tick 1084615663665. *)
Example send_cmd_b64_short_by_more_than_two_ticks :
  let old := 2329072923105701 # 34359738368 in
  let d := 3980623342766747 # 1125899906842624 in
  let new := issue_time_b64 env_confirms old d in
  Binary64.round old == old /\ Binary64.round d == d /\
  new == clock_to_print_time_b64 env_confirms 1084615663665 /\
  new + 2 * tick env_confirms < old + Py.max d MIN_CMD_TIME_b64.
Proof. cbv zeta. split_all; vm_compute; reflexivity. Qed.

(** One thousand commands of default length from the origin, at 16 MHz:
    the durations add up to tick 1638400000, and the binary64 cursor is
    the timeline value of tick 1638399982, 18 ticks before. *)
Example send_cmd_b64_times_drift :
  let w := world_at_rest default_config env_confirms [0%nat] in
  let w' := snd (send_cmd_b64_times 1000 pin_down w) in
  seconds_to_clock_b64 env_confirms MIN_CMD_TIME_b64 = 1638400%Z /\
  next_cmd_time (self w') == clock_to_print_time_b64 env_confirms 1638399982.
Proof. cbv zeta. split; vm_compute; reflexivity. Qed.

(** ** Time synchroniser *)

Lemma sync_print_time_eq (w : World) : sync_print_time w = (Ok tt, synced w).
Proof.
  unfold sync_print_time, synced, bind, gets, toolhead_get_last_move_time,
    toolhead_dwell, modify, current_motion_time.
  cbn [fst snd self printer set_toolhead next_cmd_time toolhead_print_time
       toolhead_reads env].
  destruct (Py.ltb _ _); reflexivity.
Qed.

Lemma send_cmd_sent (cmd : Command) (d : Q) (w : World) :
  send_cmd cmd d w = (Ok (next_cmd_time (self (sent cmd d w))), sent cmd d w).
Proof. reflexivity. Qed.

(** After [sync_print_time] the two timelines agree: the toolhead has caught
    up with the command cursor or the cursor with the toolhead. *)
Lemma synced_cursor (w : World) :
  next_cmd_time (self w) <= next_cmd_time (self (synced w)) /\
  current_motion_time w <= next_cmd_time (self (synced w)) /\
  next_cmd_time (self (synced w)) == toolhead_print_time (printer (synced w)).
Proof.
  unfold synced. destruct (Py.ltb _ _) eqn:E; cbn.
  - apply ltb_true_iff in E. split; [lra |]. split; [lra | ring].
  - apply ltb_false_iff in E. split; [lra |]. split; [lra | reflexivity].
Qed.

Lemma synced_frame (w : World) :
  env (printer (synced w)) = env (printer w) /\
  next_test_time (self (synced w)) = next_test_time (self w) /\
  pin_move_time (self (synced w)) = pin_move_time (self w) /\
  commands_issued (synced w) = commands_issued w.
Proof.
  unfold synced. destruct (Py.ltb _ _); split_all; reflexivity.
Qed.

#[local] Instance forward_preorder : PreOrder forward.
Proof.
  split.
  - intro w. split; [reflexivity |]. intros _. split; apply Qle_refl.
  - intros w1 w2 w3 [He12 H12] [He23 H23]. split; [congruence |].
    intro Hok. destruct (H12 Hok) as [Ha Hb].
    rewrite <- He12 in Hok. destruct (H23 Hok) as [Hc Hd].
    split; eapply Qle_trans; eassumption.
Qed.

Lemma toolhead_get_last_move_time_forward :
  preserves forward toolhead_get_last_move_time.
Proof.
  intro w. split; [reflexivity |]. intros [_ Hadv]. cbn.
  split; [apply Qle_refl |].
  specialize (Hadv (toolhead_reads (printer w))). lra.
Qed.

Lemma sync_mcu_print_time_forward : preserves forward sync_mcu_print_time.
Proof.
  intro w. split; [reflexivity |]. intros _. cbn.
  split; [apply max_lub_l | apply Qle_refl].
Qed.

Lemma sync_print_time_forward : preserves forward sync_print_time.
Proof.
  intro w. rewrite sync_print_time_eq. cbn [snd].
  destruct (synced_frame w) as (He & _). split; [exact He |].
  intros [_ Hadv]. destruct (synced_cursor w) as (H1 & H2 & H3).
  split; [exact H1 |]. rewrite <- H3.
  specialize (Hadv (toolhead_reads (printer w))).
  unfold current_motion_time in H2. cbv zeta in H2. lra.
Qed.

Lemma send_cmd_forward cmd d : preserves forward (send_cmd cmd d).
Proof.
  intro w. rewrite send_cmd_sent. cbn [snd].
  split; [reflexivity |]. intros [Hclock _]. cbn.
  split; [| apply Qle_refl].
  apply Qlt_le_weak. now apply issue_time_advances.
Qed.

Lemma endstop_home_wait_forward t : preserves forward (endstop_home_wait t).
Proof.
  intro w. unfold endstop_home_wait. cbv beta zeta.
  destruct (timed_out _); (split; [reflexivity | intros _; split; apply Qle_refl]).
Qed.

Ltac forward_leaf :=
  let w := fresh "w" in
  intro w; split; [reflexivity | intros _; split; apply Qle_refl].

Ltac forward_known :=
  idtac;
  match goal with
  | |- preserves _ toolhead_get_last_move_time =>
      apply toolhead_get_last_move_time_forward
  | |- preserves _ sync_mcu_print_time => apply sync_mcu_print_time_forward
  | |- preserves _ sync_print_time => apply sync_print_time_forward
  | |- preserves _ (send_cmd _ _) => apply send_cmd_forward
  | |- preserves _ (endstop_home_wait _) => apply endstop_home_wait_forward
  | |- preserves _ (check_deployed _) => apply check_deployed_preserves
  end.

Ltac unfold_composites :=
  unfold printer_state, home_finalize, home_finalize_retract, home_prepare,
    test_sensor, raise_probe, cmd_BLTOUCH_DEBUG, verify_state, send_cmd_default,
    home_start, get_position_endstop, sensor_debug_callback.

(** No operation moves the command cursor or the motion timeline back. *)
Lemma exec_forward (op : Op) (w : World) : forward w (exec op w).
Proof.
  destruct op; cbn [exec];
    match goal with
    | |- forward w (snd (?m w)) =>
        enough (Hp : preserves forward m) by exact (Hp w)
    end;
    unfold_composites; cbv zeta;
    preserves_walk_gen forward_known forward_leaf.
Qed.

(** ** Self-test policy *)

Lemma bind_gets {A B} (f : World -> A) (k : A -> M B) (w : World) :
  bind (gets f) k w = k (f w) w.
Proof. reflexivity. Qed.

Lemma bind_modify {B} (f : World -> World) (k : unit -> M B) (w : World) :
  bind (modify f) k w = k tt (f w).
Proof. reflexivity. Qed.

Lemma bind_sync_print_time {B} (k : unit -> M B) (w : World) :
  bind sync_print_time k w = k tt (synced w).
Proof. apply bind_ok, sync_print_time_eq. Qed.

Lemma bind_send_cmd {B} (cmd : Command) (d : Q) (k : Q -> M B) (w : World) :
  bind (send_cmd cmd d) k w = k (next_cmd_time (self (sent cmd d w))) (sent cmd d w).
Proof. reflexivity. Qed.

Lemma bind_get_last_move_time {B} (k : Q -> M B) (w : World) :
  bind toolhead_get_last_move_time k w = k (current_motion_time w) (after_read w).
Proof. reflexivity. Qed.

(** [test_sensor] with the test enabled, branch by branch. *)
Lemma test_sensor_cases (w : World) :
  test_enabled w ->
  let t := current_motion_time w in
  let w1 := after_read w in
  test_sensor w =
    if Py.ltb t (next_test_time (self w))
    then (Ok tt, set_next_test_time (t + TEST_TIME) w1)
    else
      match verify_state (test_window_start w1) (test_window_end w1) true
                         "verify sensor state" (test_idle w1) with
      | (Ok _, w') =>
          (Ok tt, synced (set_next_test_time (test_window_end w1 + TEST_TIME) w'))
      | (Raise e, w') => (Raise e, w')
      end.
Proof.
  intros [Hput Hpu] t w1.
  unfold test_sensor. rewrite !bind_gets, Hput, Hpu. cbn [negb orb].
  rewrite bind_get_last_move_time, bind_gets. fold t. fold w1.
  change (next_test_time (self w1)) with (next_test_time (self w)).
  destruct (Py.ltb t (next_test_time (self w))); [reflexivity |].
  rewrite bind_sync_print_time, bind_gets, bind_send_cmd.
  unfold send_cmd_default. rewrite !bind_send_cmd.
  fold (test_reset w1). fold (test_touch_mode w1). fold (test_idle w1).
  fold (test_window_start w1). fold (test_window_end w1).
  unfold bind at 1.
  destruct (verify_state _ _ _ _ _) as [[[] | e] w'].
  - rewrite bind_modify. apply sync_print_time_eq.
  - reflexivity.
Qed.

Lemma test_enabled_dec (w : World) :
  test_enabled w \/
  negb (pin_up_touch_triggered (self w)) || pin_up_triggered (self w) = true.
Proof.
  unfold test_enabled.
  destruct (pin_up_touch_triggered (self w)), (pin_up_triggered (self w)); cbn; auto.
Qed.

Lemma sent_cursor (cmd : Command) (d : Q) (w : World) :
  clock_ok (env (printer w)) ->
  next_cmd_time (self w) < next_cmd_time (self (sent cmd d w)).
Proof. intro H. cbn. now apply issue_time_advances. Qed.

(** The three commands of a self-test: the verification window opens after
    the cursor [sync_print_time] left and closes strictly later, and the
    cursor ends beyond it. *)
Lemma test_commands_cursor (w : World) :
  clock_ok (env (printer w)) ->
  next_cmd_time (self (synced w)) < test_window_start w /\
  test_window_start w < test_window_end w /\
  test_window_end w < next_cmd_time (self (test_idle w)) /\
  toolhead_print_time (printer (test_idle w)) = toolhead_print_time (printer (synced w)) /\
  env (printer (test_idle w)) = env (printer w) /\
  next_test_time (self (test_idle w)) = next_test_time (self w) /\
  commands_issued (test_idle w) = (3 + commands_issued w)%nat.
Proof.
  intro Hok. destruct (synced_frame w) as (He & Hnt & _ & Hc).
  assert (Hok1 : clock_ok (env (printer (synced w)))) by (rewrite He; exact Hok).
  unfold test_window_start, test_window_end, test_idle, test_touch_mode, test_reset.
  split_all.
  - now apply sent_cursor.
  - apply sent_cursor. exact Hok1.
  - apply sent_cursor. exact Hok1.
  - reflexivity.
  - exact He.
  - exact Hnt.
  - unfold commands_issued in *. cbn. rewrite Hc. reflexivity.
Qed.

Lemma after_read_current (w : World) :
  timeline_ok (env (printer w)) ->
  current_motion_time w <= current_motion_time (after_read w).
Proof.
  intro H. unfold current_motion_time, after_read.
  cbn [set_toolhead printer toolhead_print_time toolhead_reads env].
  unfold current_motion_time. cbv zeta.
  specialize (H (S (toolhead_reads (printer w)))). lra.
Qed.

(** The self-test policy keeps a settled world settled and never moves
    [next_test_time] back. *)
Lemma test_sensor_settled (w : World) :
  settled w ->
  settled (snd (test_sensor w)) /\
  next_test_time (self w) <= next_test_time (self (snd (test_sensor w))).
Proof.
  intros [[Hclock Hadv] Hnt].
  destruct (test_enabled_dec w) as [Hen | Hdis].
  2:{ rewrite (test_sensor_disabled w Hdis). cbn [snd].
      split; [split; [split |] |]; try assumption. apply Qle_refl. }
  rewrite (test_sensor_cases w Hen). cbv zeta.
  pose proof (Hadv (toolhead_reads (printer w))) as Hadv0.
  set (t := current_motion_time w) in *.
  assert (Ht : toolhead_print_time (printer w) <= t).
  { subst t. unfold current_motion_time. cbv zeta. lra. }
  destruct (Py.ltb t (next_test_time (self w))) eqn:E.
  - cbn [snd]. split; [split; [split; assumption |] |]; world_simpl; fold t; lra.
  - apply ltb_false_iff in E.
    set (w1 := after_read w) in *.
    assert (Hclock1 : clock_ok (env (printer w1))) by exact Hclock.
    destruct (test_commands_cursor w1 Hclock1)
      as (Hcs & Hce & Hidle & HT & He & Hnt5 & _).
    destruct (synced_cursor w1) as (_ & Hcur & HsT).
    pose proof (after_read_current w Hadv) as Hread. fold t in Hread. fold w1 in Hread.
    pose proof (verify_state_outcome (test_window_start w1) (test_window_end w1)
                  true "verify sensor state" (test_idle w1)) as Hv.
    cbv zeta in Hv.
    destruct (timed_out _).
    + rewrite Hv. cbn [snd].
      destruct (after_wait_same_timeline (test_window_start w1) (test_window_end w1)
                  true (test_idle w1)) as [Hs He' HT' _ _ _ _ _].
      split; [split; [split |] |].
      * rewrite He', He. exact Hclock.
      * rewrite He', He. exact Hadv.
      * rewrite Hs, HT', Hnt5, HT, <- HsT.
        change (next_test_time (self w1)) with (next_test_time (self w)). lra.
      * rewrite Hs, Hnt5. apply Qle_refl.
    + destruct Hv as (w' & Hrun & [Hs He' HT' _ _ _ _ _] & _).
      rewrite Hrun. cbn [snd].
      set (w6 := set_next_test_time (test_window_end w1 + TEST_TIME) w').
      destruct (synced_frame w6) as (He6 & Hnt6 & _).
      destruct (synced_cursor w6) as (Hnc6 & _ & HsT6).
      assert (Hnc' : next_cmd_time (self w6) = next_cmd_time (self (test_idle w1)))
        by (subst w6; world_simpl; rewrite Hs; reflexivity).
      split; [split; [split |] |].
      * rewrite He6. subst w6. world_simpl. rewrite He', He. exact Hclock.
      * rewrite He6. subst w6. world_simpl. rewrite He', He. exact Hadv.
      * rewrite Hnt6, <- HsT6. rewrite Hnc' in Hnc6. subst w6. world_simpl. lra.
      * rewrite Hnt6. subst w6. world_simpl. fold t. lra.
Qed.

(** ** Monotone cursors *)

(** Only the self-test policy writes [next_test_time]. *)
Lemma exec_keeps_next_test_time (op : Op) (w : World) :
  runs_self_test op = false ->
  next_test_time_of (exec op w) = next_test_time_of w.
Proof.
  intro H. destruct op; try discriminate H; cbn [exec];
    match goal with
    | |- next_test_time_of (snd (?m w)) = _ =>
        enough (Hp : preserves (keeps next_test_time_of) m) by exact (Hp w)
    end;
    unfold_methods; cbv zeta; preserves_walk_with check_deployed_known.
Qed.

(** What [home_prepare] runs after the self-test policy. *)
Lemma home_prepare_deploys :
  let deploy :=
    sync_print_time ;;
    pmt <- gets (fun w => pin_move_time (self w)) ;;
    send_cmd pin_down (pmt - MIN_CMD_TIME) ;;
    send_cmd_default cmd_None ;;
    sync_print_time ;;
    endstop_home_prepare ;;
    modify (fun w =>
      set_start_mcu_pos
        (map (fun s => (s, stepper_get_mcu_position s w))
             (endstop_steppers (printer w))) w) in
  home_prepare = (test_sensor ;; deploy) /\
  preserves (keeps next_test_time_of) deploy /\
  preserves forward deploy.
Proof.
  cbv zeta. split; [reflexivity |]. split.
  - unfold_methods. preserves_walk.
  - unfold_composites. preserves_walk_gen forward_known forward_leaf.
Qed.

Lemma settled_step (w w' : World) :
  settled w -> forward w w' ->
  next_test_time (self w') = next_test_time (self w) ->
  settled w' /\ next_test_time (self w) <= next_test_time (self w').
Proof.
  intros [Hok Hnt] [He Hfw] Hkeep. destruct (Hfw Hok) as [_ HT].
  split; [split |].
  - rewrite He. exact Hok.
  - rewrite Hkeep. lra.
  - rewrite Hkeep. apply Qle_refl.
Qed.

(** Every operation keeps a settled world settled and moves neither cursor
    back. *)
Lemma exec_settled (op : Op) (w : World) :
  settled w ->
  settled (exec op w) /\
  next_cmd_time (self w) <= next_cmd_time (self (exec op w)) /\
  next_test_time (self w) <= next_test_time (self (exec op w)).
Proof.
  intro Hw.
  assert (Hnct : next_cmd_time (self w) <= next_cmd_time (self (exec op w))).
  { destruct (exec_forward op w) as [_ Hfw]. destruct Hw as [Hok _].
    now destruct (Hfw Hok). }
  enough (settled (exec op w) /\
          next_test_time (self w) <= next_test_time (self (exec op w)))
    as [H1 H2] by (split; [exact H1 | split; [exact Hnct | exact H2]]).
  destruct (runs_self_test op) eqn:E.
  - destruct op; try discriminate E; cbn [exec].
    + now apply test_sensor_settled.
    + destruct home_prepare_deploys as (Heq & Hkeep & Hfw). rewrite Heq.
      pose proof (test_sensor_settled w Hw) as [Hs Hle].
      destruct (test_sensor w) as [[[] | e] w1] eqn:Ets; cbn [snd] in Hs, Hle.
      * rewrite (bind_ok _ _ _ _ _ Ets).
        match goal with
        | |- context [snd (?deploy w1)] =>
            destruct (settled_step w1 (snd (deploy w1)) Hs (Hfw w1) (Hkeep w1))
              as [Hs' Hle']
        end.
        split; [exact Hs' | exact (Qle_trans _ _ _ Hle Hle')].
      * rewrite (bind_raise _ _ _ _ _ Ets). split; assumption.
  - apply settled_step.
    + exact Hw.
    + apply exec_forward.
    + now apply exec_keeps_next_test_time.
Qed.

Lemma run_app (ops1 ops2 : list Op) (w : World) :
  run (ops1 ++ ops2) w = run ops2 (run ops1 w).
Proof. unfold run. apply fold_left_app. Qed.

Lemma run_settled (ops : list Op) :
  forall w : World,
  settled w ->
  settled (run ops w) /\
  next_cmd_time (self w) <= next_cmd_time (self (run ops w)) /\
  next_test_time (self w) <= next_test_time (self (run ops w)).
Proof.
  induction ops as [| op ops IH]; intros w Hw.
  - cbn. split; [exact Hw |]. split; apply Qle_refl.
  - cbn [run fold_left]. destruct (exec_settled op w Hw) as (Hs & Hc & Ht).
    destruct (IH (exec op w) Hs) as (Hs' & Hc' & Ht'). unfold run in *.
    split; [exact Hs' |]. split; eapply Qle_trans; eassumption.
Qed.

(** A wrapper fresh from [__init__] is settled when the collaborators
    behave and print time has not started below zero. *)
Lemma init_settled (cfg : Config) (p : Printer) :
  env_ok (env p) -> 0 <= toolhead_print_time p ->
  settled (mkWorld (init cfg) p).
Proof.
  intros Hok HT. split; [exact Hok |]. cbn [self printer init next_test_time].
  unfold TEST_TIME. lra.
Qed.

(** Why the clock must resolve the minimum command duration: at one tick
    per second a cursor at 0.9 s and a command of 0.1024 s both truncate to
    zero ticks, and [send_cmd] puts the cursor back at 0. *)
Lemma slow_clock_moves_cursor_back :
  let w := snd (sync_print_time (world_at_rest default_config env_slow_clock [0%nat])) in
  next_cmd_time (self w) == 0.9 /\
  next_cmd_time (self (snd (send_cmd pin_down MIN_CMD_TIME w))) == 0.
Proof.
  cbv zeta. split; vm_compute; reflexivity.
Qed.

(** C3.  Starting from a freshly constructed wrapper, with a toolhead whose
    last move time never goes back (and starts at a non-negative print
    time) and a clock that resolves the minimum command duration: along
    every sequence of operations of the wrapper, [next_cmd_time] and
    [next_test_time] after any prefix are no greater than after any longer
    prefix. *)
Theorem cursors_never_decrease (cfg : Config) (p : Printer)
    (before after : list Op) :
  timeline_ok (env p) ->
  clock_ok (env p) ->
  0 <= toolhead_print_time p ->
  let w0 := mkWorld (init cfg) p in
  let w1 := run before w0 in
  let w2 := run (before ++ after) w0 in
  next_cmd_time (self w1) <= next_cmd_time (self w2) /\
  next_test_time (self w1) <= next_test_time (self w2).
Proof.
  intros Hadv Hclock HT w0 w1 w2.
  assert (H0 : settled w0) by (apply init_settled; [split |]; assumption).
  destruct (run_settled before w0 H0) as (H1 & _).
  subst w2. rewrite run_app. fold w1.
  destruct (run_settled after w1 H1) as (_ & Hc & Ht).
  split; assumption.
Qed.

Lemma cursors_never_decrease_witness :
  let w0 := world_at_rest default_config env_confirms [0%nat] in
  let w1 := run [op_printer_state "connect"; op_home_prepare] w0 in
  let w2 := run ([op_printer_state "connect"; op_home_prepare]
                 ++ [op_home_finalize; op_test_sensor]) w0 in
  next_cmd_time (self w1) <= next_cmd_time (self w2) /\
  next_test_time (self w1) <= next_test_time (self w2).
Proof.
  apply (cursors_never_decrease default_config (printer_at_rest env_confirms [0%nat])
           [op_printer_state "connect"; op_home_prepare]
           [op_home_finalize; op_test_sensor]).
  - intro n. vm_compute. discriminate.
  - split; vm_compute; [reflexivity | discriminate].
  - vm_compute. discriminate.
Defined.

(** ** Self-test throttling *)

Lemma test_sensor_skip (w : World) :
  test_enabled w ->
  current_motion_time w < next_test_time (self w) ->
  test_sensor w =
    (Ok tt, set_next_test_time (current_motion_time w + TEST_TIME) (after_read w)).
Proof.
  intros Hen Hlt. rewrite (test_sensor_cases w Hen). cbv zeta.
  apply ltb_true_iff in Hlt. rewrite Hlt. reflexivity.
Qed.

Lemma test_sensor_run (w : World) :
  test_enabled w ->
  next_test_time (self w) <= current_motion_time w ->
  let w1 := after_read w in
  test_sensor w =
    match verify_state (test_window_start w1) (test_window_end w1) true
                       "verify sensor state" (test_idle w1) with
    | (Ok _, w') =>
        (Ok tt, synced (set_next_test_time (test_window_end w1 + TEST_TIME) w'))
    | (Raise e, w') => (Raise e, w')
    end.
Proof.
  intros Hen Hle. rewrite (test_sensor_cases w Hen). cbv zeta.
  apply ltb_false_iff in Hle. rewrite Hle. reflexivity.
Qed.

(** A self-test that ran and passed: the verification it passed, the new
    [next_test_time] and the three commands it issued. *)
Lemma test_sensor_run_passed (w : World) :
  test_enabled w ->
  next_test_time (self w) <= current_motion_time w ->
  fst (test_sensor w) = Ok tt ->
  let w1 := after_read w in
  exists w',
    verify_state (test_window_start w1) (test_window_end w1) true
                 "verify sensor state" (test_idle w1) = (Ok tt, w') /\
    snd (test_sensor w) =
      synced (set_next_test_time (test_window_end w1 + TEST_TIME) w') /\
    next_test_time (self (snd (test_sensor w))) = test_window_end w1 + TEST_TIME /\
    commands_issued (snd (test_sensor w)) = (3 + commands_issued w)%nat.
Proof.
  intros Hen Hle Hok w1. rewrite (test_sensor_run w Hen Hle) in *. fold w1 in Hok |- *.
  pose proof (verify_state_outcome (test_window_start w1) (test_window_end w1)
                true "verify sensor state" (test_idle w1)) as Hv.
  cbv zeta in Hv. destruct (timed_out _).
  - rewrite Hv in Hok. discriminate Hok.
  - destruct Hv as (w' & Hrun & Hst & _). rewrite Hrun. cbn [snd].
    exists w'. split; [reflexivity |]. split; [reflexivity |].
    set (w6 := set_next_test_time (test_window_end w1 + TEST_TIME) w').
    destruct (synced_frame w6) as (_ & Hnt & _ & Hc). split.
    + rewrite Hnt. reflexivity.
    + rewrite Hc. change (commands_issued w6) with (commands_issued w').
      rewrite (st_cmds _ _ Hst).
      unfold test_idle, test_touch_mode, test_reset.
      pose proof (synced_frame w1) as (_ & _ & _ & Hc1).
      unfold commands_issued in *. cbn. rewrite Hc1. reflexivity.
Qed.

(** The window of a self-test closes strictly after the motion time the
    call read. *)
Lemma test_window_after_call (w : World) :
  env_ok (env (printer w)) ->
  current_motion_time w < test_window_end (after_read w).
Proof.
  intros [Hclock Hadv].
  assert (Hclock1 : clock_ok (env (printer (after_read w)))) by exact Hclock.
  destruct (test_commands_cursor (after_read w) Hclock1) as (Hcs & Hce & _).
  destruct (synced_cursor (after_read w)) as (_ & Hcur & _).
  pose proof (after_read_current w Hadv). lra.
Qed.

(** C7, as the code has it.  For a call of [test_sensor] in a settled
    world, at motion time [t1], and a later call at motion time [t2]:
    - a call that skips because [t1] is before [next_test_time] issues no
      command and sets [next_test_time] to [t1 + TEST_TIME];
    - a call that runs the test and passes has verified the window that
      ends with the second command, sets [next_test_time] to that window
      end plus [TEST_TIME], and has issued three commands;
    - when the first call did not raise and [t2 <= t1 + TEST_TIME], at most
      one of the two calls issues commands, whatever operations ran in
      between. *)
Theorem test_sensor_throttle (w1 : World) (between : list Op) :
  settled w1 ->
  let t1 := current_motion_time w1 in
  let r1 := test_sensor w1 in
  let w2 := run between (snd r1) in
  let t2 := current_motion_time w2 in
  let r2 := test_sensor w2 in
  (test_enabled w1 -> t1 < next_test_time (self w1) ->
   fst r1 = Ok tt /\
   next_test_time (self (snd r1)) = t1 + TEST_TIME /\
   commands_issued (snd r1) = commands_issued w1) /\
  (test_enabled w1 -> next_test_time (self w1) <= t1 -> fst r1 = Ok tt ->
   exists w',
     verify_state (test_window_start (after_read w1))
                  (test_window_end (after_read w1)) true
                  "verify sensor state" (test_idle (after_read w1)) = (Ok tt, w') /\
     next_test_time (self (snd r1)) = test_window_end (after_read w1) + TEST_TIME /\
     commands_issued (snd r1) = (3 + commands_issued w1)%nat) /\
  (fst r1 = Ok tt -> t2 <= t1 + TEST_TIME ->
   commands_issued (snd r1) = commands_issued w1 \/
   commands_issued (snd r2) = commands_issued w2).
Proof.
  intros Hw t1 r1 w2 t2 r2. split; [| split].
  - intros Hen Hlt. subst r1. rewrite (test_sensor_skip w1 Hen Hlt).
    split_all; reflexivity.
  - intros Hen Hle Hok.
    destruct (test_sensor_run_passed w1 Hen Hle Hok) as (w' & Hv & _ & Hnt & Hc).
    exists w'. split_all; assumption.
  - intros Hok Ht2.
    destruct (test_enabled_dec w1) as [Hen | Hdis].
    2:{ left. subst r1. rewrite (test_sensor_disabled w1 Hdis). reflexivity. }
    destruct (Qlt_le_dec t1 (next_test_time (self w1))) as [Hlt | Hle].
    { left. subst r1. rewrite (test_sensor_skip w1 Hen Hlt). reflexivity. }
    right.
    destruct (test_sensor_run_passed w1 Hen Hle Hok) as (w' & _ & _ & Hnt & _).
    destruct (test_sensor_settled w1 Hw) as [Hs1 _].
    destruct (run_settled between (snd r1) Hs1) as (_ & _ & Hmono).
    fold w2 in Hmono.
    destruct Hw as [Hok1 _]. pose proof (test_window_after_call w1 Hok1) as Hwin.
    fold t1 in Hwin.
    assert (Hdue : t2 < next_test_time (self w2)).
    { subst r1. rewrite Hnt in Hmono. lra. }
    destruct (test_enabled_dec w2) as [Hen2 | Hdis2].
    + subst r2. rewrite (test_sensor_skip w2 Hen2 Hdue). reflexivity.
    + subst r2. rewrite (test_sensor_disabled w2 Hdis2). reflexivity.
Qed.

Lemma test_sensor_throttle_witness :
  let w1 := world_at_rest default_config env_confirms [0%nat] in
  let w2 := run [op_home_prepare; op_home_finalize] (snd (test_sensor w1)) in
  commands_issued (snd (test_sensor w1)) = commands_issued w1 \/
  commands_issued (snd (test_sensor w2)) = commands_issued w2.
Proof.
  intros w1 w2.
  destruct (test_sensor_throttle w1 [op_home_prepare; op_home_finalize])
    as (_ & _ & H).
  - apply init_settled.
    + split; [split; vm_compute; [reflexivity | discriminate] |].
      intro n. vm_compute. discriminate.
    + vm_compute. discriminate.
  - apply H.
    + vm_compute. reflexivity.
    + vm_compute. discriminate.
Defined.

(** C7, refuted as stated: a self-test whose verification times out leaves
    [next_test_time] alone, so a second call at the same motion time runs
    the test, and issues its three commands, again. *)
Lemma test_sensor_retests_after_failure :
  let w1 := world_at_rest default_config env_never_confirms [0%nat] in
  let r1 := test_sensor w1 in
  let r2 := test_sensor (snd r1) in
  current_motion_time w1 == 0 /\
  current_motion_time (snd r1) == 0 /\
  fst r1 = Raise (EndstopError "BLTouch failed to verify sensor state") /\
  commands_issued w1 = 0%nat /\
  commands_issued (snd r1) = 3%nat /\
  commands_issued (snd r2) = 6%nat.
Proof.
  cbv zeta. split_all; vm_compute; reflexivity.
Qed.

(** * Further properties *)

(** ** Actuation channel, continued *)

Lemma int_compat (x y : Q) : x == y -> Py.int x = Py.int y.
Proof.
  intro H. unfold Py.int.
  assert (Hb : Qle_bool 0 x = Qle_bool 0 y).
  { destruct (Qle_bool 0 x) eqn:Ex, (Qle_bool 0 y) eqn:Ey; try reflexivity.
    - apply Qle_bool_iff in Ex. rewrite H in Ex. apply Qle_bool_iff in Ex. congruence.
    - apply Qle_bool_iff in Ey. rewrite <- H in Ey. apply Qle_bool_iff in Ey. congruence. }
  rewrite Hb. destruct (Qle_bool 0 y).
  - now rewrite H.
  - now rewrite H.
Qed.

(** X3.  A requested duration at or below the minimum is served as the minimum:
    the call, its return and the world are exactly those of
    [send_cmd(cmd)] with the default duration. *)
Theorem send_cmd_short_duration_is_minimum (cmd : Command) (d : Q) (w : World) :
  d <= MIN_CMD_TIME ->
  send_cmd cmd d w = send_cmd_default cmd w.
Proof.
  intro Hd. unfold send_cmd_default. rewrite !send_cmd_sent.
  assert (Ht : issue_time (env (printer w)) (next_cmd_time (self w)) d =
               issue_time (env (printer w)) (next_cmd_time (self w)) MIN_CMD_TIME).
  { unfold issue_time, seconds_to_clock. f_equal. f_equal. apply int_compat.
    destruct (max_cases d MIN_CMD_TIME) as [[_ E] | [Hge E]]; rewrite E;
      destruct (max_cases MIN_CMD_TIME MIN_CMD_TIME) as [[Hlt _] | [_ E']];
      try (exfalso; lra); rewrite E'; [reflexivity |].
    assert (Heq : d == MIN_CMD_TIME) by lra. now rewrite Heq. }
  unfold sent. rewrite Ht. reflexivity.
Qed.

Lemma send_cmd_short_duration_is_minimum_witness :
  let w := world_at_rest default_config env_confirms [0%nat] in
  send_cmd pin_down 0 w = send_cmd_default pin_down w.
Proof.
  intro w. apply (send_cmd_short_duration_is_minimum pin_down 0 w).
  vm_compute. discriminate.
Defined.

(** X4.  The duty value of a command is a fraction of the period below one
    tenth, zero for the idle command only, and no two commands share it:
    the pulse width alone tells the probe which command was sent.
    [send_cmd] programs that value at the cursor it found. *)
Theorem send_cmd_duty_identifies_command (cmd : Command) (d : Q) (w : World) :
  let value := Commands cmd / SIGNAL_PERIOD in
  log (printer (snd (send_cmd cmd d w))) =
    EvSetPwm (next_cmd_time (self w)) value :: log (printer w) /\
  0 <= value /\ value < 0.1 /\
  (value == 0 <-> cmd = cmd_None) /\
  (forall cmd', Commands cmd' / SIGNAL_PERIOD == value -> cmd' = cmd).
Proof.
  cbv zeta. split; [reflexivity |].
  split; [destruct cmd; vm_compute; discriminate |].
  split; [destruct cmd; vm_compute; reflexivity |].
  split.
  - split.
    + intro H. destruct cmd; try reflexivity; vm_compute in H; discriminate H.
    + intro H. subst cmd. reflexivity.
  - intros cmd' H.
    destruct cmd, cmd'; try reflexivity; vm_compute in H; discriminate H.
Qed.

(** ** Probe raise and verification windows *)

Lemma raise_probe_cases (w : World) :
  raise_probe w =
    verify_state (probe_window_start w) (probe_window_end w)
                 (pin_up_triggered (self (probe_idle w))) "raise probe"
                 (probe_idle w).
Proof.
  unfold raise_probe, send_cmd_default.
  rewrite bind_send_cmd, bind_gets, bind_send_cmd, bind_send_cmd, bind_gets.
  reflexivity.
Qed.

Lemma probe_commands_cursor (w : World) :
  clock_ok (env (printer w)) ->
  next_cmd_time (self w) < probe_window_start w /\
  probe_window_start w < probe_window_end w.
Proof.
  intro Hok. unfold probe_window_start, probe_window_end, probe_idle, probe_pin_up.
  pose proof (sent_cursor reset MIN_CMD_TIME w Hok) as H1. fold (probe_reset w) in H1.
  assert (Hok1 : clock_ok (env (printer (probe_reset w)))) by exact Hok.
  pose proof (sent_cursor pin_up (pin_move_time (self (probe_reset w)))
                (probe_reset w) Hok1) as H2.
  split; [lra |]. apply sent_cursor. exact Hok.
Qed.

(** X5.  Both verifications the wrapper runs get a window that is not empty and
    lies after the cursor: [raise_probe] verifies from the return of its
    [pin_up] command to the return of its idle command, the self-test from
    the return of its [reset] command to the return of its [touch_mode]
    command, and with a clock that resolves the minimum command duration
    each window start is strictly before its end. *)
Theorem verification_windows_nonempty (w : World) :
  clock_ok (env (printer w)) ->
  (raise_probe w =
     verify_state (probe_window_start w) (probe_window_end w)
                  (pin_up_triggered (self w)) "raise probe" (probe_idle w) /\
   next_cmd_time (self w) < probe_window_start w /\
   probe_window_start w < probe_window_end w /\
   probe_window_end w = next_cmd_time (self (probe_idle w))) /\
  (test_enabled w -> next_test_time (self w) <= current_motion_time w ->
   let w1 := after_read w in
   test_sensor w =
     match verify_state (test_window_start w1) (test_window_end w1) true
                        "verify sensor state" (test_idle w1) with
     | (Ok _, w') =>
         (Ok tt, synced (set_next_test_time (test_window_end w1 + TEST_TIME) w'))
     | (Raise e, w') => (Raise e, w')
     end /\
   test_window_start w1 < test_window_end w1 /\
   test_window_end w1 < next_cmd_time (self (test_idle w1))).
Proof.
  intro Hok. split.
  - destruct (probe_commands_cursor w Hok) as [H1 H2].
    split; [apply raise_probe_cases |]. split; [exact H1 |].
    split; [exact H2 | reflexivity].
  - intros Hen Hdue w1.
    assert (Hok1 : clock_ok (env (printer w1))) by exact Hok.
    destruct (test_commands_cursor w1 Hok1) as (_ & H2 & H3 & _).
    split; [now apply test_sensor_run |]. split; assumption.
Qed.

Lemma verification_windows_nonempty_witness :
  let w := world_at_rest default_config env_confirms [0%nat] in
  probe_window_start w < probe_window_end w.
Proof.
  intro w. destruct (verification_windows_nonempty w) as [(_ & _ & H & _) _].
  - split; vm_compute; [reflexivity | discriminate].
  - exact H.
Defined.

Lemma synced_steppers (w : World) :
  steppers (printer (synced w)) = steppers (printer w) /\
  endstop_steppers (printer (synced w)) = endstop_steppers (printer w) /\
  endstop_waits (printer (synced w)) = endstop_waits (printer w) /\
  start_mcu_pos (self (synced w)) = start_mcu_pos (self w) /\
  sensing_calls (synced w) = sensing_calls w.
Proof.
  unfold synced. destruct (Py.ltb _ _); split_all; reflexivity.
Qed.

Lemma commanded_positions_ext (w w' : World) :
  endstop_steppers (printer w') = endstop_steppers (printer w) ->
  (forall s, In s (endstop_steppers (printer w)) ->
             stepper_get_commanded_position s w' = stepper_get_commanded_position s w) ->
  commanded_positions w' = commanded_positions w.
Proof.
  intros Hids Hin. unfold commanded_positions. rewrite Hids.
  apply map_ext_in. exact Hin.
Qed.

Lemma raise_probe_summary (w : World) :
  let o := home_wait_outcome (env (printer w)) (endstop_waits (printer w)) in
  commands_issued (snd (raise_probe w)) = (3 + commands_issued w)%nat /\
  next_cmd_time (self (snd (raise_probe w))) = probe_window_end w /\
  if timed_out o
  then fst (raise_probe w) = Raise (EndstopError "BLTouch failed to raise probe")
  else fst (raise_probe w) = Ok tt /\
       commanded_positions (snd (raise_probe w)) = commanded_positions w.
Proof.
  intro o. rewrite raise_probe_cases.
  pose proof (verify_state_outcome (probe_window_start w) (probe_window_end w)
                (pin_up_triggered (self (probe_idle w))) "raise probe"
                (probe_idle w)) as Hv.
  cbv zeta in Hv.
  change (home_wait_outcome (env (printer (probe_idle w)))
            (endstop_waits (printer (probe_idle w)))) with o in Hv.
  assert (Hc : commands_issued (probe_idle w) = (3 + commands_issued w)%nat)
    by reflexivity.
  destruct (timed_out o).
  - rewrite Hv. cbn [fst snd]. split; [| split]; reflexivity.
  - destruct Hv as (w' & Hrun & Hst & _ & Hin & _). rewrite Hrun. cbn [fst snd].
    split; [rewrite (st_cmds _ _ Hst); exact Hc |].
    split; [rewrite (st_self _ _ Hst); reflexivity |].
    split; [reflexivity |].
    transitivity (commanded_positions (probe_idle w)); [| reflexivity].
    apply commanded_positions_ext; [apply (st_ids _ _ Hst) | exact Hin].
Qed.

(** ** Invariants of the call log *)

#[local] Instance carries_preorder (A : Env -> Prop) (P : World -> Prop) :
  PreOrder (carries A P).
Proof.
  split.
  - intro w. split; [reflexivity | auto].
  - intros w1 w2 w3 [He12 H12] [He23 H23]. split; [congruence |].
    intros HA HP. apply H23; [rewrite He12; exact HA | now apply H12].
Qed.

Ltac carries_leaf :=
  let w := fresh "w" in
  let H := fresh "H" in
  intro w; split; [reflexivity | intros _ H; exact H].

Lemma endstop_home_wait_carries A P t :
  (forall w w', self w' = self w -> log (printer w') = EvHomeWait t :: log (printer w) ->
                P w -> P w') ->
  preserves (carries A P) (endstop_home_wait t).
Proof.
  intros HP w. unfold endstop_home_wait. cbv beta zeta.
  destruct (timed_out _); (split; [reflexivity |]); intros _ H;
    (eapply HP; [| | exact H]); reflexivity.
Qed.

Lemma descending_weaken (l : list Q) (b b' : Q) :
  b <= b' -> descending b l -> descending b' l.
Proof.
  intros Hb H. destruct l as [| t l]; [exact I |].
  destruct H as [Ht Hl]. split; [lra | exact Hl].
Qed.

Lemma sync_mcu_print_time_in_order :
  preserves (carries clock_ok scheduled_in_order) sync_mcu_print_time.
Proof.
  intro w. split; [reflexivity |]. intros _ H.
  unfold scheduled_in_order in *. cbn [snd sync_mcu_print_time].
  eapply descending_weaken; [| exact H].
  unfold sync_mcu_print_time, bind, reactor_estimated_print_time, modify.
  world_simpl. apply max_lub_l.
Qed.

Lemma sync_print_time_in_order :
  preserves (carries clock_ok scheduled_in_order) sync_print_time.
Proof.
  intro w. rewrite sync_print_time_eq. cbn [snd].
  destruct (synced_frame w) as (He & _). split; [exact He |]. intros _ H.
  destruct (synced_cursor w) as (Hle & _).
  unfold scheduled_in_order in *.
  assert (Hlog : pwm_times (log (printer (synced w))) = pwm_times (log (printer w))).
  { unfold synced. destruct (Py.ltb _ _); reflexivity. }
  rewrite Hlog. eapply descending_weaken; eassumption.
Qed.

Lemma send_cmd_in_order cmd d :
  preserves (carries clock_ok scheduled_in_order) (send_cmd cmd d).
Proof.
  intro w. rewrite send_cmd_sent. cbn [snd]. split; [reflexivity |].
  intros Hok H. unfold scheduled_in_order in *.
  pose proof (sent_cursor cmd d w Hok) as Hlt.
  change (pwm_times (log (printer (sent cmd d w))))
    with (next_cmd_time (self w) :: pwm_times (log (printer w))).
  split; assumption.
Qed.

Ltac in_order_known :=
  idtac;
  match goal with
  | |- preserves _ sync_mcu_print_time => apply sync_mcu_print_time_in_order
  | |- preserves _ sync_print_time => apply sync_print_time_in_order
  | |- preserves _ (send_cmd _ _) => apply send_cmd_in_order
  | |- preserves _ (endstop_home_wait _) =>
      apply endstop_home_wait_carries;
      let w := fresh "w" in let w' := fresh "w'" in
      let Hs := fresh "Hs" in let Hl := fresh "Hl" in let H := fresh "H" in
      intros w w' Hs Hl H; unfold scheduled_in_order in *;
      rewrite Hs, Hl; exact H
  | |- preserves _ (check_deployed _) => apply check_deployed_preserves
  end.

Lemma exec_in_order (op : Op) (w : World) :
  carries clock_ok scheduled_in_order w (exec op w).
Proof.
  destruct op; cbn [exec];
    match goal with
    | |- carries _ _ w (snd (?m w)) =>
        enough (Hp : preserves (carries clock_ok scheduled_in_order) m)
          by exact (Hp w)
    end;
    unfold_composites; cbv zeta;
    preserves_walk_gen in_order_known carries_leaf.
Qed.

Lemma run_carries A P (ops : list Op) :
  (forall op w, carries A P w (exec op w)) ->
  forall w, carries A P w (run ops w).
Proof.
  intro Hstep. induction ops as [| op ops IH]; intro w.
  - reflexivity.
  - cbn [run fold_left]. fold (run ops (exec op w)).
    transitivity (exec op w); [apply Hstep | apply IH].
Qed.

(** X7.  Along every sequence of operations of a freshly constructed wrapper,
    with a clock that resolves the minimum command duration, the print
    times handed to [set_pwm] are strictly increasing, and the cursor is
    strictly after the last of them: no command is ever scheduled at or
    before an earlier one. *)
Theorem commands_scheduled_in_order (cfg : Config) (p : Printer) (ops : list Op) :
  clock_ok (env p) ->
  log p = [] ->
  scheduled_in_order (run ops (mkWorld (init cfg) p)).
Proof.
  intros Hok Hlog.
  destruct (run_carries clock_ok scheduled_in_order ops exec_in_order
              (mkWorld (init cfg) p)) as [_ H].
  apply H; [exact Hok |].
  unfold scheduled_in_order. cbn [printer]. rewrite Hlog. exact I.
Qed.

Lemma commands_scheduled_in_order_witness :
  scheduled_in_order
    (run [op_printer_state "connect"; op_home_prepare; op_home_finalize]
         (mkWorld (init default_config) (printer_at_rest env_confirms [0%nat]))).
Proof.
  apply (commands_scheduled_in_order default_config
           (printer_at_rest env_confirms [0%nat])
           [op_printer_state "connect"; op_home_prepare; op_home_finalize]).
  - split; vm_compute; [reflexivity | discriminate].
  - reflexivity.
Defined.

Lemma sync_print_time_dwells_positive :
  preserves (carries (fun _ => True) dwells_positive) sync_print_time.
Proof.
  intro w. rewrite sync_print_time_eq. cbn [snd].
  destruct (synced_frame w) as (He & _). split; [exact He |]. intros _ H.
  unfold dwells_positive in *. unfold synced.
  destruct (Py.ltb _ _) eqn:E.
  - apply ltb_true_iff in E. constructor; [lra | exact H].
  - exact H.
Qed.

Ltac dwells_known :=
  idtac;
  match goal with
  | |- preserves _ sync_print_time => apply sync_print_time_dwells_positive
  | |- preserves _ (endstop_home_wait _) =>
      apply endstop_home_wait_carries;
      let w := fresh "w" in let w' := fresh "w'" in
      let Hs := fresh "Hs" in let Hl := fresh "Hl" in let H := fresh "H" in
      intros w w' Hs Hl H; unfold dwells_positive in *;
      rewrite Hl; exact H
  | |- preserves _ (check_deployed _) => apply check_deployed_preserves
  end.

Lemma exec_dwells_positive (op : Op) (w : World) :
  carries (fun _ => True) dwells_positive w (exec op w).
Proof.
  destruct op; cbn [exec];
    match goal with
    | |- carries _ _ w (snd (?m w)) =>
        enough (Hp : preserves (carries (fun _ => True) dwells_positive) m)
          by exact (Hp w)
    end;
    unfold_composites; unfold send_cmd; cbv zeta;
    preserves_walk_gen dwells_known carries_leaf.
Qed.

(** X8.  Along every sequence of operations of a freshly constructed wrapper the
    toolhead is only ever asked to dwell for a strictly positive time. *)
Theorem dwell_delays_positive (cfg : Config) (p : Printer) (ops : list Op) :
  log p = [] ->
  dwells_positive (run ops (mkWorld (init cfg) p)).
Proof.
  intro Hlog.
  destruct (run_carries (fun _ => True) dwells_positive ops exec_dwells_positive
              (mkWorld (init cfg) p)) as [_ H].
  apply H; [exact I |].
  unfold dwells_positive. cbn [printer]. rewrite Hlog. constructor.
Qed.

Lemma dwell_delays_positive_witness :
  dwells_positive
    (run [op_printer_state "connect"; op_home_prepare; op_home_finalize]
         (mkWorld (init default_config) (printer_at_rest env_confirms [0%nat]))).
Proof.
  apply (dwell_delays_positive default_config
           (printer_at_rest env_confirms [0%nat])
           [op_printer_state "connect"; op_home_prepare; op_home_finalize]).
  reflexivity.
Defined.

(** ** Homing lifecycle, continued *)

Lemma home_prepare_eq (w : World) :
  home_prepare w =
    match test_sensor w with
    | (Ok _, w1) => (Ok tt, deployed w1)
    | (Raise e, w1) => (Raise e, w1)
    end.
Proof.
  unfold home_prepare. unfold bind at 1.
  destruct (test_sensor w) as [[[] | e] w1]; [| reflexivity].
  rewrite bind_sync_print_time, bind_gets, bind_send_cmd.
  unfold send_cmd_default. rewrite bind_send_cmd, bind_sync_print_time.
  unfold endstop_home_prepare. rewrite bind_modify.
  unfold modify, deployed, mcu_positions. cbv beta zeta. reflexivity.
Qed.

Lemma synced_cursor_max (w : World) :
  next_cmd_time (self (synced w)) =
    Py.max (current_motion_time w) (next_cmd_time (self w)).
Proof. unfold synced, Py.max. destruct (Py.ltb _ _); reflexivity. Qed.

Lemma pwm_calls_synced (w : World) : pwm_calls (synced w) = pwm_calls w.
Proof. unfold synced. destruct (Py.ltb _ _); reflexivity. Qed.

Lemma synced_fields (w : World) :
  env (printer (synced w)) = env (printer w) /\
  pin_move_time (self (synced w)) = pin_move_time (self w).
Proof. unfold synced. destruct (Py.ltb _ _); split; reflexivity. Qed.

(** X9.  When [home_prepare] returns, its self-test policy returned first, and
    after it exactly two commands were sent: [pin_down], at the later of
    the toolhead's last move time and the cursor, for the pin move time
    less the minimum command duration, and the idle command at the return
    of [pin_down].  The endstop's own prepare hook is the one call made on
    the sensing channel after the self-test policy, and the snapshot lists
    every stepper of the endstop, in order, with the hardware counter that
    stepper has on return. *)
Theorem home_prepare_snapshot (w w' : World) :
  home_prepare w = (Ok tt, w') ->
  start_mcu_pos (self w') = mcu_positions w' /\
  exists w1,
    test_sensor w = (Ok tt, w1) /\
    let t1 := Py.max (current_motion_time w1) (next_cmd_time (self w1)) in
    let t2 := issue_time (env (printer w1)) t1
                (pin_move_time (self w1) - MIN_CMD_TIME) in
    pwm_calls w' =
      EvSetPwm t2 (Commands cmd_None / SIGNAL_PERIOD)
        :: EvSetPwm t1 (Commands pin_down / SIGNAL_PERIOD)
        :: pwm_calls w1 /\
    sensing_calls w' = EvHomePrepare :: sensing_calls w1.
Proof.
  rewrite home_prepare_eq.
  destruct (test_sensor w) as [[[] | e] w1]; [| discriminate].
  intro H. injection H as <-.
  unfold deployed. cbv zeta.
  set (wa := synced w1).
  set (wb := sent pin_down (pin_move_time (self wa) - MIN_CMD_TIME) wa).
  set (wc := sent cmd_None MIN_CMD_TIME wb).
  set (wd := set_start_mcu_pos _ _).
  assert (Hdep : wd =
                 set_start_mcu_pos (mcu_positions (emit EvHomePrepare (synced wc)))
                   (emit EvHomePrepare (synced wc))) by reflexivity.
  clearbody wd.
  destruct (synced_steppers wc) as (_ & _ & _ & _ & Hsens).
  destruct (synced_steppers w1) as (_ & _ & _ & _ & Hsens1).
  destruct (synced_fields w1) as (He1 & Hp1).
  split; [rewrite Hdep; reflexivity |].
  exists w1. split; [reflexivity |].
  rewrite <- synced_cursor_max, <- He1, <- Hp1. fold wa. split.
  - rewrite Hdep.
    change (pwm_calls (set_start_mcu_pos _ (emit EvHomePrepare (synced wc))))
      with (pwm_calls (synced wc)).
    rewrite pwm_calls_synced.
    change (pwm_calls wc)
      with (EvSetPwm (next_cmd_time (self wb)) (Commands cmd_None / SIGNAL_PERIOD)
              :: EvSetPwm (next_cmd_time (self wa)) (Commands pin_down / SIGNAL_PERIOD)
              :: pwm_calls wa).
    assert (Hwa : pwm_calls wa = pwm_calls w1) by apply pwm_calls_synced.
    rewrite Hwa. reflexivity.
  - rewrite Hdep.
    change (sensing_calls (set_start_mcu_pos _ (emit EvHomePrepare (synced wc))))
      with (EvHomePrepare :: sensing_calls (synced wc)).
    rewrite Hsens.
    change (sensing_calls wc) with (sensing_calls wa).
    unfold wa. rewrite Hsens1. reflexivity.
Qed.

Lemma home_prepare_snapshot_witness :
  let w := world_at_rest default_config env_confirms [0%nat] in
  start_mcu_pos (self (snd (home_prepare w))) = mcu_positions (snd (home_prepare w)).
Proof.
  intro w.
  destruct (home_prepare_snapshot w (snd (home_prepare w))) as (H & _).
  - vm_compute. reflexivity.
  - exact H.
Defined.

(** X10.  A self-test that fails aborts [home_prepare] on the spot: the same
    exception is raised from the world the self-test left, so the probe is
    not deployed, the endstop's prepare hook is not called and the snapshot
    of the previous attempt is not replaced. *)
Theorem home_prepare_aborts_with_self_test (w w1 : World) (e : Exn) :
  test_sensor w = (Raise e, w1) ->
  home_prepare w = (Raise e, w1) /\
  start_mcu_pos (self w1) = start_mcu_pos (self w).
Proof.
  intro H. split; [rewrite home_prepare_eq, H; reflexivity |].
  destruct (test_enabled_dec w) as [Hen | Hdis].
  2:{ rewrite (test_sensor_disabled w Hdis) in H. discriminate H. }
  rewrite (test_sensor_cases w Hen) in H. cbv zeta in H.
  destruct (Py.ltb _ _); [discriminate H |].
  pose proof (verify_state_outcome (test_window_start (after_read w))
                (test_window_end (after_read w)) true "verify sensor state"
                (test_idle (after_read w))) as Hv.
  cbv zeta in Hv. destruct (timed_out _).
  - rewrite Hv in H. injection H as _ <-.
    destruct (synced_steppers (after_read w)) as (_ & _ & _ & Hs & _).
    change (start_mcu_pos (self (after_wait _ _ _ (test_idle (after_read w)))))
      with (start_mcu_pos (self (synced (after_read w)))).
    rewrite Hs. reflexivity.
  - destruct Hv as (w' & Hrun & _). rewrite Hrun in H. discriminate H.
Qed.

Lemma home_prepare_aborts_with_self_test_witness :
  let w := world_at_rest default_config env_never_confirms [0%nat] in
  home_prepare w =
    (Raise (EndstopError "BLTouch failed to verify sensor state"),
     snd (test_sensor w)).
Proof.
  intro w.
  destruct (home_prepare_aborts_with_self_test w (snd (test_sensor w))
              (EndstopError "BLTouch failed to verify sensor state")) as [H _].
  - vm_compute. reflexivity.
  - exact H.
Defined.

(** ** Exceptions that leave the wrapper *)




Lemma check_deployed_result (snapshot : list (nat * Z)) (w : World) :
  check_deployed snapshot w = (Ok tt, w) \/
  check_deployed snapshot w = (Raise failed_to_deploy, w).
Proof.
  induction snapshot as [| [s p] rest IH]; cbn [check_deployed].
  - left. reflexivity.
  - unfold bind, gets. cbn [fst snd].
    destruct (Z.eqb _ _); [right; reflexivity | exact IH].
Qed.

Lemma home_finalize_retract_eq (w : World) :
  home_finalize_retract w =
    match raise_probe (snd (sync_mcu_print_time w)) with
    | (Ok _, w2) => (Ok tt, synced w2)
    | (Raise e, w2) => (Raise e, w2)
    end.
Proof.
  unfold home_finalize_retract.
  rewrite (bind_ok _ _ _ _ _ (sync_mcu_print_time_returns w)).
  unfold bind at 1.
  destruct (raise_probe _) as [[[] | e] w2]; [apply sync_print_time_eq | reflexivity].
Qed.


Lemma cmd_BLTOUCH_DEBUG_unknown (param : option string) (w : World) :
  match param with Some name => lookup_command name | None => None end = None ->
  cmd_BLTOUCH_DEBUG param w =
    (Ok tt,
     emit (EvRespondInfo
             "BLTouch commands: pin_down, pin_up, reset, self_test, touch_mode") w).
Proof.
  intro H. unfold cmd_BLTOUCH_DEBUG. cbv zeta.
  destruct param as [name |]; [rewrite H |]; reflexivity.
Qed.

Lemma cmd_BLTOUCH_DEBUG_known (name : string) (cmd : Command) (w : World) :
  lookup_command name = Some cmd ->
  cmd_BLTOUCH_DEBUG (Some name) w = (Ok tt, debugged name cmd w).
Proof.
  intro H. unfold cmd_BLTOUCH_DEBUG. cbv zeta. rewrite H.
  rewrite !bind_modify, bind_sync_print_time, bind_gets, bind_send_cmd.
  unfold send_cmd_default. rewrite bind_send_cmd.
  unfold debugged. cbv zeta. apply sync_print_time_eq.
Qed.

Lemma exec_is_call (op : Op) (w : World) : exec op w = snd (call op w).
Proof.
  destruct op; cbn [exec call]; reflexivity.
Qed.









(** ** Hardware counters and commanded positions across a homing attempt *)

#[local] Instance counters_kept_preorder : PreOrder counters_kept.
Proof.
  split.
  - intro w. split; [reflexivity |]. intros _ s. reflexivity.
  - intros w1 w2 w3 [He12 H12] [He23 H23]. split; [congruence |].
    intros Hq s. rewrite H23 by (rewrite He12; exact Hq). now apply H12.
Qed.











Lemma commanded_positions_synced (w : World) :
  commanded_positions (synced w) = commanded_positions w.
Proof.
  destruct (synced_steppers w) as (Hst & Hids & _).
  unfold commanded_positions, stepper_get_commanded_position.
  rewrite Hst, Hids. reflexivity.
Qed.

(** ** Fields fixed at construction *)

Lemma exec_keeps_construction_fields (op : Op) (w : World) :
  construction_fields (exec op w) = construction_fields w.
Proof.
  destruct op; cbn [exec];
    match goal with
    | |- construction_fields (snd (?m w)) = _ =>
        enough (Hp : preserves (keeps construction_fields) m) by exact (Hp w)
    end;
    unfold_methods; cbv zeta; preserves_walk_with check_deployed_known.
Qed.

Lemma run_keeps_construction_fields (ops : list Op) :
  forall w : World, construction_fields (run ops w) = construction_fields w.
Proof.
  induction ops as [| op ops IH]; intro w; [reflexivity |].
  cbn [run fold_left]. fold (run ops (exec op w)).
  rewrite IH. apply exec_keeps_construction_fields.
Qed.

(** X14.  Whatever operations have run since construction, the offset query
    returns the configured [z_offset] without touching the world, the pin
    move time is the one computed in [__init__], and the two policy flags
    are the configured ones (defaults: touch-mode stow triggers, normal
    stow does not). *)
Theorem configuration_is_fixed (cfg : Config) (p : Printer) (ops : list Op) :
  let w := run ops (mkWorld (init cfg) p) in
  get_position_endstop w = (Ok (z_offset cfg), w) /\
  pin_move_time (self w) = calc_pin_move_time cfg /\
  pin_up_touch_triggered (self w) =
    config_get (triggered_on_pin_up_touch_mode cfg) true /\
  pin_up_triggered (self w) = config_get (triggered_on_pin_up cfg) false.
Proof.
  intro w.
  pose proof (run_keeps_construction_fields ops (mkWorld (init cfg) p)) as Hc.
  pose proof (run_keeps_policy_flags ops (mkWorld (init cfg) p)) as Hf.
  fold w in Hc, Hf. unfold construction_fields in Hc. unfold policy_flags in Hf.
  cbn [self init position_endstop pin_move_time pin_up_touch_triggered
       pin_up_triggered] in Hc, Hf.
  injection Hc as Hz Hp. injection Hf as Hput Hpu.
  split; [unfold get_position_endstop, gets; rewrite Hz; reflexivity |].
  split; [exact Hp |]. split; assumption.
Qed.

(** ** The self-test policy when verification fails *)

Lemma test_idle_frame (w : World) :
  env (printer (test_idle w)) = env (printer w) /\
  endstop_waits (printer (test_idle w)) = endstop_waits (printer w) /\
  next_test_time (self (test_idle w)) = next_test_time (self w) /\
  commands_issued (test_idle w) = (3 + commands_issued w)%nat.
Proof.
  destruct (synced_frame w) as (He & Hnt & _ & Hc).
  destruct (synced_steppers w) as (_ & _ & Hw & _).
  unfold test_idle, test_touch_mode, test_reset.
  generalize dependent (synced w). intros w0 He Hnt Hc Hw.
  split; [exact He |]. split; [exact Hw |]. split; [exact Hnt |].
  rewrite <- Hc. reflexivity.
Qed.

(** X15.  When the self-test is due and its verification times out,
    [test_sensor] raises "BLTouch failed to verify sensor state" after
    issuing its three commands, and [next_test_time] is left as it was: the
    failure does not postpone the next test. *)
Theorem test_sensor_failure_keeps_schedule (w : World) :
  test_enabled w ->
  next_test_time (self w) <= current_motion_time w ->
  timed_out (home_wait_outcome (env (printer w)) (endstop_waits (printer w))) = true ->
  fst (test_sensor w) = Raise (EndstopError "BLTouch failed to verify sensor state") /\
  next_test_time (self (snd (test_sensor w))) = next_test_time (self w) /\
  commands_issued (snd (test_sensor w)) = (3 + commands_issued w)%nat.
Proof.
  intros Hen Hdue Hto. rewrite (test_sensor_run w Hen Hdue). cbv zeta.
  set (w1 := after_read w).
  destruct (test_idle_frame w1) as (He & Hw & Hnt & Hc).
  pose proof (verify_state_outcome (test_window_start w1) (test_window_end w1)
                true "verify sensor state" (test_idle w1)) as Hv.
  cbv zeta in Hv. rewrite He, Hw in Hv.
  change (env (printer w1)) with (env (printer w)) in Hv.
  change (endstop_waits (printer w1)) with (endstop_waits (printer w)) in Hv.
  rewrite Hto in Hv. rewrite Hv. cbn [fst snd].
  destruct (after_wait_same_timeline (test_window_start w1) (test_window_end w1)
              true (test_idle w1)) as [Hs _ _ _ _ _ Hcmd _].
  split; [reflexivity |]. split.
  - rewrite Hs, Hnt. reflexivity.
  - rewrite Hcmd, Hc. reflexivity.
Qed.

Lemma test_sensor_failure_keeps_schedule_witness :
  let w := world_at_rest default_config env_never_confirms [0%nat] in
  fst (test_sensor w) = Raise (EndstopError "BLTouch failed to verify sensor state") /\
  next_test_time (self (snd (test_sensor w))) = next_test_time (self w) /\
  commands_issued (snd (test_sensor w)) = (3 + commands_issued w)%nat.
Proof.
  intro w. apply (test_sensor_failure_keeps_schedule w).
  - split; reflexivity.
  - vm_compute. discriminate.
  - reflexivity.
Defined.

(** ** What a verification asks of the sensing channel *)

Lemma verify_state_eq cs ce trig msg (w : World) :
  verify_state cs ce trig msg w =
    if timed_out (home_wait_outcome (env (printer w)) (endstop_waits (printer w)))
    then (Raise (EndstopError ("BLTouch failed to " ++ msg)), after_wait cs ce trig w)
    else for_each (combine (endstop_steppers (printer w)) (commanded_positions w))
           (fun sp => stepper_set_commanded_position (fst sp) (snd sp))
           (after_wait cs ce trig w).
Proof.
  unfold verify_state, bind, gets, try_except, endstop_home_start,
    modify, endstop_home_wait, raise.
  cbn [fst snd printer env emit set_steppers set_endstop_waits endstop_waits
       steppers endstop_steppers].
  destruct (timed_out _); reflexivity.
Qed.

Lemma restore_keeps_sensing_calls (l : list (nat * Q)) :
  preserves (keeps sensing_calls)
    (for_each l (fun sp => stepper_set_commanded_position (fst sp) (snd sp))).
Proof. preserves_walk. Qed.

(** X16.  Whatever its outcome, [verify_state] makes exactly two calls on the
    sensing channel: it arms the endstop once, at the window start, with a
    sample time of 15 microseconds, 4 samples, a rest time of one
    millisecond and the caller's expected state, and then waits once for
    the window end.  It issues no actuation command and moves neither the
    wrapper's fields nor the toolhead. *)
Theorem verify_state_arms_once cs ce trig msg (w : World) :
  sensing_calls (snd (verify_state cs ce trig msg w)) =
    EvHomeWait ce
      :: EvHomeStart cs ENDSTOP_SAMPLE_TIME ENDSTOP_SAMPLE_COUNT ENDSTOP_REST_TIME
                     (Some trig)
      :: sensing_calls w /\
  ENDSTOP_SAMPLE_TIME == 15 / 1000000 /\
  ENDSTOP_SAMPLE_COUNT = 4%Z /\
  ENDSTOP_REST_TIME == 1 / 1000 /\
  same_timeline w (snd (verify_state cs ce trig msg w)).
Proof.
  split; [| split; [reflexivity | split; [reflexivity | split; [reflexivity |]]]].
  - rewrite verify_state_eq. destruct (timed_out _); [reflexivity |].
    rewrite (restore_keeps_sensing_calls _ (after_wait cs ce trig w)). reflexivity.
  - pose proof (verify_state_outcome cs ce trig msg w) as H. cbv zeta in H.
    destruct (timed_out _).
    + rewrite H. apply after_wait_same_timeline.
    + destruct H as (w' & Hrun & Hst & _). rewrite Hrun. exact Hst.
Qed.

(** ** Probe raise: the calls it makes *)

Lemma verify_state_keeps_pwm_calls cs ce trig msg :
  preserves (keeps pwm_calls) (verify_state cs ce trig msg).
Proof. unfold_methods. preserves_walk. Qed.

Lemma verify_state_sensing_calls cs ce trig msg (w : World) :
  sensing_calls (snd (verify_state cs ce trig msg w)) =
    EvHomeWait ce
      :: EvHomeStart cs ENDSTOP_SAMPLE_TIME ENDSTOP_SAMPLE_COUNT ENDSTOP_REST_TIME
                     (Some trig)
      :: sensing_calls w.
Proof.
  rewrite verify_state_eq. destruct (timed_out _); [reflexivity |].
  rewrite (restore_keeps_sensing_calls _ (after_wait cs ce trig w)). reflexivity.
Qed.

(** X6.  [raise_probe] sends [reset] at the cursor for the minimum command
    duration, [pin_up] at the return of that command for the pin move time
    and the idle command at the return of [pin_up] for the minimum command
    duration; it then arms the endstop at the time the idle command was
    sent, expecting the configured pin-up state, and waits until the return
    of the idle command, which is where the cursor stays.  When the wait
    times out it raises "BLTouch failed to raise probe"; when the wait
    confirms it returns with the commanded position of every endstop
    stepper as it was at entry. *)
Theorem raise_probe_outcome (w : World) :
  let e := env (printer w) in
  let t0 := next_cmd_time (self w) in
  let t1 := issue_time e t0 MIN_CMD_TIME in
  let t2 := issue_time e t1 (pin_move_time (self w)) in
  let t3 := issue_time e t2 MIN_CMD_TIME in
  let r := raise_probe w in
  pwm_calls (snd r) =
    EvSetPwm t2 (Commands cmd_None / SIGNAL_PERIOD)
      :: EvSetPwm t1 (Commands pin_up / SIGNAL_PERIOD)
      :: EvSetPwm t0 (Commands reset / SIGNAL_PERIOD)
      :: pwm_calls w /\
  sensing_calls (snd r) =
    EvHomeWait t3
      :: EvHomeStart t2 ENDSTOP_SAMPLE_TIME ENDSTOP_SAMPLE_COUNT ENDSTOP_REST_TIME
                     (Some (pin_up_triggered (self w)))
      :: sensing_calls w /\
  next_cmd_time (self (snd r)) = t3 /\
  if timed_out (home_wait_outcome e (endstop_waits (printer w)))
  then fst r = Raise (EndstopError "BLTouch failed to raise probe")
  else fst r = Ok tt /\ commanded_positions (snd r) = commanded_positions w.
Proof.
  intros e t0 t1 t2 t3 r.
  pose proof (raise_probe_summary w) as (_ & Hcur & Hout). fold e in Hout.
  assert (Hs : probe_window_start w = t2) by reflexivity.
  assert (He : probe_window_end w = t3) by reflexivity.
  split; [| split; [| split; [rewrite <- He; exact Hcur | exact Hout]]].
  - subst r. rewrite raise_probe_cases.
    rewrite (verify_state_keeps_pwm_calls _ _ _ _ (probe_idle w)). reflexivity.
  - subst r. rewrite raise_probe_cases, verify_state_sensing_calls, Hs, He.
    reflexivity.
Qed.

(** ** The debug command *)

Lemma lookup_command_name (name : string) (cmd : Command) :
  lookup_command name = Some cmd <-> command_name cmd = Some name.
Proof.
  split.
  - unfold lookup_command. intro H.
    repeat match type of H with
    | (if String.eqb ?a ?b then _ else _) = _ =>
        let E := fresh "E" in
        destruct (String.eqb a b) eqn:E;
        [apply String.eqb_eq in E; subst; injection H as <-; reflexivity |]
    end.
    discriminate H.
  - intro H. destruct cmd; cbn [command_name] in H; try discriminate H;
      injection H as <-; reflexivity.
Qed.

Lemma synced_calls (w : World) :
  info_calls (synced w) = info_calls w /\
  toolhead_reads (printer (synced w)) = S (toolhead_reads (printer w)).
Proof. unfold synced. destruct (Py.ltb _ _); split; reflexivity. Qed.

(** X17.  Without a [COMMAND], or with a name that is not a key of [Commands],
    [BLTOUCH_DEBUG] answers with the sorted list of the command names and
    does nothing else.  With the name of a command it answers and logs
    "Sending BLTOUCH_DEBUG COMMAND=" followed by the name, and then sends
    exactly two commands: the named one, at the later of the toolhead's
    last move time and the cursor, for the pin move time, and the idle
    command at the return of the named one.  It reads the toolhead's last
    move time twice and makes no call on the sensing channel. *)
Theorem cmd_BLTOUCH_DEBUG_outcome (param : option string) (w : World) :
  let r := cmd_BLTOUCH_DEBUG param w in
  ((forall name cmd, param = Some name -> command_name cmd <> Some name) ->
   r = (Ok tt,
        emit (EvRespondInfo
                "BLTouch commands: pin_down, pin_up, reset, self_test, touch_mode")
             w)) /\
  (forall name cmd, param = Some name -> command_name cmd = Some name ->
   let msg := ("Sending BLTOUCH_DEBUG COMMAND=" ++ name)%string in
   let t1 := Py.max (current_motion_time w) (next_cmd_time (self w)) in
   let t2 := issue_time (env (printer w)) t1 (pin_move_time (self w)) in
   info_calls (snd r) = EvLoggingInfo msg :: EvRespondInfo msg :: info_calls w /\
   pwm_calls (snd r) =
     EvSetPwm t2 (Commands cmd_None / SIGNAL_PERIOD)
       :: EvSetPwm t1 (Commands cmd / SIGNAL_PERIOD)
       :: pwm_calls w /\
   sensing_calls (snd r) = sensing_calls w /\
   toolhead_reads (printer (snd r)) = (2 + toolhead_reads (printer w))%nat).
Proof.
  intro r. split.
  - intro Hnone.
    assert (E : match param with Some name => lookup_command name | None => None end
                = None).
    { destruct param as [name |]; [| reflexivity].
      destruct (lookup_command name) as [cmd |] eqn:El; [| reflexivity].
      apply lookup_command_name in El. exfalso. exact (Hnone name cmd eq_refl El). }
    subst r. exact (cmd_BLTOUCH_DEBUG_unknown param w E).
  - intros name cmd -> Hname msg t1 t2. apply lookup_command_name in Hname.
    subst r. rewrite (cmd_BLTOUCH_DEBUG_known name cmd w Hname). cbn [snd].
    unfold debugged. cbv zeta. fold msg.
    set (w0 := emit (EvLoggingInfo msg) (emit (EvRespondInfo msg) w)).
    assert (Ht1 : next_cmd_time (self (synced w0)) = t1) by apply synced_cursor_max.
    destruct (synced_fields w0) as (He & Hp).
    destruct (synced_calls w0) as (Hi & Hr).
    destruct (synced_steppers w0) as (_ & _ & _ & _ & Hs).
    pose proof (pwm_calls_synced w0) as Hc.
    set (w1 := synced w0) in *.
    set (w2 := sent cmd_None MIN_CMD_TIME (sent cmd (pin_move_time (self w1)) w1)).
    destruct (synced_calls w2) as (Hi2 & Hr2).
    destruct (synced_steppers w2) as (_ & _ & _ & _ & Hs2).
    rewrite Hi2, Hr2, Hs2, (pwm_calls_synced w2).
    assert (H2 : pwm_calls w2 =
                 EvSetPwm (issue_time (env (printer w1)) (next_cmd_time (self w1))
                             (pin_move_time (self w1)))
                          (Commands cmd_None / SIGNAL_PERIOD)
                   :: EvSetPwm (next_cmd_time (self w1)) (Commands cmd / SIGNAL_PERIOD)
                   :: pwm_calls w1) by reflexivity.
    change (info_calls w2) with (info_calls w1).
    change (sensing_calls w2) with (sensing_calls w1).
    change (toolhead_reads (printer w2)) with (toolhead_reads (printer w1)).
    rewrite H2, Hi, Hs, Hr, Hc, Ht1, He, Hp.
    split_all; reflexivity.
Qed.

Lemma cmd_BLTOUCH_DEBUG_outcome_witness :
  let w := world_at_rest default_config env_confirms [0%nat] in
  let r := cmd_BLTOUCH_DEBUG (Some "pin_down"%string) w in
  info_calls (snd r) =
    [EvLoggingInfo "Sending BLTOUCH_DEBUG COMMAND=pin_down";
     EvRespondInfo "Sending BLTOUCH_DEBUG COMMAND=pin_down"] /\
  toolhead_reads (printer (snd r)) = 2%nat.
Proof.
  intros w r.
  destruct (cmd_BLTOUCH_DEBUG_outcome (Some "pin_down"%string) w) as (_ & H).
  destruct (H "pin_down"%string pin_down eq_refl eq_refl) as (H1 & _ & _ & H4).
  split; [exact H1 | exact H4].
Defined.

(** ** Commanded positions across the whole interface *)

Lemma commanded_positions_set_start_mcu_pos l (w : World) :
  commanded_positions (set_start_mcu_pos l w) = commanded_positions w.
Proof. reflexivity. Qed.

Lemma commanded_positions_set_next_test_time t (w : World) :
  commanded_positions (set_next_test_time t w) = commanded_positions w.
Proof. reflexivity. Qed.

Lemma commanded_positions_emit ev (w : World) :
  commanded_positions (emit ev w) = commanded_positions w.
Proof. reflexivity. Qed.

Lemma commanded_positions_sent cmd d (w : World) :
  commanded_positions (sent cmd d w) = commanded_positions w.
Proof. reflexivity. Qed.

Lemma commanded_positions_after_read (w : World) :
  commanded_positions (after_read w) = commanded_positions w.
Proof. reflexivity. Qed.

Ltac positions_simpl :=
  repeat first
    [ rewrite commanded_positions_set_start_mcu_pos
    | rewrite commanded_positions_set_next_test_time
    | rewrite commanded_positions_emit
    | rewrite commanded_positions_sent
    | rewrite commanded_positions_synced
    | rewrite commanded_positions_after_read ].

Lemma verify_state_positions cs ce trig msg (w w' : World) :
  verify_state cs ce trig msg w = (Ok tt, w') ->
  commanded_positions w' = commanded_positions w.
Proof.
  intro H. pose proof (verify_state_outcome cs ce trig msg w) as Hv.
  cbv zeta in Hv. destruct (timed_out _).
  - rewrite Hv in H. discriminate H.
  - destruct Hv as (w2 & Hrun & Hst & _ & Hin & _). rewrite Hrun in H.
    injection H as <-.
    apply commanded_positions_ext; [apply (st_ids _ _ Hst) | exact Hin].
Qed.

Lemma raise_probe_positions (w w' : World) :
  raise_probe w = (Ok tt, w') -> commanded_positions w' = commanded_positions w.
Proof.
  rewrite raise_probe_cases. intro H.
  rewrite (verify_state_positions _ _ _ _ _ _ H).
  unfold probe_idle, probe_pin_up, probe_reset.
  positions_simpl. reflexivity.
Qed.

Lemma test_sensor_positions (w w' : World) :
  test_sensor w = (Ok tt, w') -> commanded_positions w' = commanded_positions w.
Proof.
  destruct (test_enabled_dec w) as [Hen | Hdis].
  2:{ rewrite (test_sensor_disabled w Hdis). intro H. injection H as <-. reflexivity. }
  rewrite (test_sensor_cases w Hen). cbv zeta.
  destruct (Py.ltb _ _).
  - intro H. injection H as <-. positions_simpl. reflexivity.
  - destruct (verify_state _ _ _ _ _) as [[[] | e] w2] eqn:Hv; [| discriminate].
    intro H. injection H as <-. positions_simpl.
    rewrite (verify_state_positions _ _ _ _ _ _ Hv).
    unfold test_idle, test_touch_mode, test_reset.
    positions_simpl. reflexivity.
Qed.

Lemma home_finalize_positions (w w' : World) :
  home_finalize w = (Ok tt, w') -> commanded_positions w' = commanded_positions w.
Proof.
  intro H. pose proof (home_finalize_retract_eq w) as Hret.
  destruct (raise_probe (snd (sync_mcu_print_time w))) as [[[] | e] w2] eqn:Hrp.
  - destruct (home_finalize_after_retract w _ Hret) as [Hfin _].
    rewrite Hfin in H.
    destruct (check_deployed_result (start_mcu_pos (self w)) (synced w2)) as [Hc | Hc];
      rewrite Hc in H; [| discriminate H].
    injection H as <-. positions_simpl.
    rewrite (raise_probe_positions _ _ Hrp). reflexivity.
  - rewrite (home_finalize_retract_raises w _ _ Hret) in H. discriminate H.
Qed.

Lemma printer_state_returns (state : string) (w w' : World) :
  printer_state state w = (Ok tt, w') ->
  w' = w \/ raise_probe (snd (sync_mcu_print_time w)) = (Ok tt, w').
Proof.
  unfold printer_state. destruct (String.eqb state "connect").
  - rewrite (try_except_bind_ok _ _ _ _ _ _ (sync_mcu_print_time_returns w)).
    unfold try_except.
    destruct (raise_probe (snd (sync_mcu_print_time w))) as [[[] | e] w2].
    + intro H. injection H as <-. right. reflexivity.
    + destruct e; intro H; discriminate H.
  - intro H. injection H as <-. left. reflexivity.
Qed.

Lemma printer_state_positions (state : string) (w w' : World) :
  printer_state state w = (Ok tt, w') ->
  commanded_positions w' = commanded_positions w.
Proof.
  intro H. destruct (printer_state_returns state w w' H) as [-> | Hrp];
    [reflexivity |].
  rewrite (raise_probe_positions _ _ Hrp). reflexivity.
Qed.

(** X18.  Every operation of the wrapper that returns, rather than raises, leaves
    the commanded position of every endstop stepper exactly as it found it,
    whatever the endstop waits did to the steppers in between. *)
Theorem returning_call_keeps_commanded_positions (op : Op) (w w' : World) :
  call op w = (Ok tt, w') ->
  commanded_positions w' = commanded_positions w.
Proof.
  destruct op; cbn [call]; intro H.
  - exact (printer_state_positions _ _ _ H).
  - rewrite sync_mcu_print_time_returns in H. injection H as <-. reflexivity.
  - rewrite sync_print_time_eq in H. injection H as <-.
    apply commanded_positions_synced.
  - unfold bind in H. rewrite send_cmd_sent in H. injection H as <-. reflexivity.
  - exact (verify_state_positions _ _ _ _ _ _ H).
  - now apply raise_probe_positions.
  - now apply test_sensor_positions.
  - rewrite home_prepare_eq in H.
    destruct (test_sensor w) as [[[] | e] w1] eqn:Hts; [| discriminate H].
    injection H as <-. unfold deployed. cbv zeta. positions_simpl.
    now apply test_sensor_positions.
  - now apply home_finalize_positions.
  - injection H as <-. reflexivity.
  - injection H as <-. reflexivity.
  - destruct (match param with Some name => lookup_command name | None => None end)
      as [cmd |] eqn:E.
    + destruct param as [name |]; [| discriminate E].
      rewrite (cmd_BLTOUCH_DEBUG_known name cmd w E) in H. injection H as <-.
      unfold debugged. cbv zeta. positions_simpl. reflexivity.
    + rewrite (cmd_BLTOUCH_DEBUG_unknown param w E) in H. injection H as <-.
      reflexivity.
  - injection H as <-. reflexivity.
Qed.

Lemma returning_call_keeps_commanded_positions_witness :
  let w := world_at_rest default_config env_confirms [0%nat] in
  commanded_positions (snd (call op_home_prepare w)) = commanded_positions w.
Proof.
  intro w.
  apply (returning_call_keeps_commanded_positions op_home_prepare w
           (snd (call op_home_prepare w))).
  vm_compute. reflexivity.
Defined.
